(** * Social-preview card pipeline of Catalog_of_Repos

    Shallow embedding of the Node.js scripts [generate_preview_script.js]
    (organization-listing variant), [part_000] (static-list variant with
    [fetchRepositoryDetails]), [part_001] (credential-scoped listing
    [fetchRepositoryNames]) and [part_002] (public-org listing of the
    clone-based variant).  Network, file-system and browser effects are
    given as an explicit environment; [await]ed promises that can reject
    are modelled by the [settled] type. *)

From Stdlib Require Import String Ascii List ZArith Bool Lia.
Import ListNotations.
Open Scope string_scope.

(** ** JavaScript values *)

(** The JS values that flow through the scripts: provider JSON fields are
    strings, numbers, [null] or missing ([undefined]). *)
Inductive jsval : Type :=
| JUndefined
| JNull
| JBool (b : bool)
| JNum (z : Z)
| JStr (s : string).

(** JS truthiness, used by [||] and [if (!x)]. *)
Definition truthy (v : jsval) : bool :=
  match v with
  | JUndefined | JNull => false
  | JBool b => b
  | JNum z => negb (Z.eqb z 0)
  | JStr s => negb (String.eqb s "")
  end.

(** [a || b] *)
Definition js_or (a b : jsval) : jsval := if truthy a then a else b.

(** [a === b] *)
Definition js_strict_eq (a b : jsval) : bool :=
  match a, b with
  | JUndefined, JUndefined | JNull, JNull => true
  | JBool x, JBool y => Bool.eqb x y
  | JNum x, JNum y => Z.eqb x y
  | JStr x, JStr y => String.eqb x y
  | _, _ => false
  end.

(** Decimal rendering of integers, as [String(n)] does. *)
Fixpoint string_of_uint (u : Decimal.uint) : string :=
  match u with
  | Decimal.Nil => ""
  | Decimal.D0 u => String "0" (string_of_uint u)
  | Decimal.D1 u => String "1" (string_of_uint u)
  | Decimal.D2 u => String "2" (string_of_uint u)
  | Decimal.D3 u => String "3" (string_of_uint u)
  | Decimal.D4 u => String "4" (string_of_uint u)
  | Decimal.D5 u => String "5" (string_of_uint u)
  | Decimal.D6 u => String "6" (string_of_uint u)
  | Decimal.D7 u => String "7" (string_of_uint u)
  | Decimal.D8 u => String "8" (string_of_uint u)
  | Decimal.D9 u => String "9" (string_of_uint u)
  end.

Definition string_of_Z (z : Z) : string :=
  match Z.to_int z with
  | Decimal.Pos u => string_of_uint u
  | Decimal.Neg u => String "-" (string_of_uint u)
  end.

(** [String(v)], i.e. what a template literal [${v}] inserts. *)
Definition js_to_string (v : jsval) : string :=
  match v with
  | JUndefined => "undefined"
  | JNull => "null"
  | JBool true => "true"
  | JBool false => "false"
  | JNum z => string_of_Z z
  | JStr s => s
  end.

(** ** String helpers *)

Fixpoint contains (pat s : string) : bool :=
  String.prefix pat s ||
  match s with
  | EmptyString => false
  | String _ s' => contains pat s'
  end.

(** The double-quote character; template text below writes it as [~]
    (the script's template contains no [~]). *)
Definition dq : ascii := ascii_of_nat 34.

Fixpoint decode_tpl (s : string) : string :=
  match s with
  | EmptyString => EmptyString
  | String c s' =>
      String (if Ascii.eqb c "~"%char then dq else c) (decode_tpl s')
  end.

(** ** Configuration (generate_preview_script.js, lines 7-14) *)

Definition TARGET_ORG : string := "DapaLMS1".
(** [path.join(__dirname, 'previews')], taken relative to [__dirname]. *)
Definition OUTPUT_DIR : string := "previews".
Definition CLONE_DIR : string := "temp_clone".
Definition THUMBNAIL_WIDTH : Z := 1200.
Definition THUMBNAIL_HEIGHT : Z := 630.
Definition REPO_NAME : string := "Catalog_of_Repos".

(** ** Card data record

    The object literal built by [fetchRepositories]
    (generate_preview_script.js) and [fetchRepositoryDetails] (part_000):
    [{name, description, language, stars, forks, updated_at, html_url}].
    [updated_at] is the result of [toLocaleDateString()], always a string. *)
Record card_data : Type := mkCard {
  name : jsval;
  description : jsval;
  language : jsval;
  stars : jsval;
  forks : jsval;
  updated_at : string;
  html_url : jsval
}.

(** ** Card renderer (generate_preview_script.js, [generateHtmlContent]) *)

(** [String(x)] of the members that [Object.prototype] supplies to the
    object-literal lookup [{...}[key]]. *)
Definition native_fn (f : string) : string :=
  "function " ++ f ++ "() { [native code] }".

Definition proto_member (key : string) : option string :=
  match key with
  | "constructor" => Some (native_fn "Object")
  | "toString" | "toLocaleString" | "valueOf" | "hasOwnProperty"
  | "isPrototypeOf" | "propertyIsEnumerable" | "__defineGetter__"
  | "__defineSetter__" | "__lookupGetter__" | "__lookupSetter__" =>
      Some (native_fn key)
  | "__proto__" => Some "[object Object]"
  | _ => None
  end.

(** [{ 'JavaScript': ..., 'N/A': 'text-gray-400' }[repoData.language]
     || 'text-gray-400'] (the key is [String(repoData.language)]). *)
Definition languageColor (lang : jsval) : string :=
  match js_to_string lang with
  | "JavaScript" => "text-yellow-400"
  | "TypeScript" => "text-blue-500"
  | "Python" => "text-green-500"
  | "HTML" => "text-red-500"
  | "CSS" => "text-indigo-500"
  | "N/A" => "text-gray-400"
  | k => match proto_member k with
         | Some s => s
         | None => "text-gray-400"
         end
  end.

(** The literal pieces of the template string of [generateHtmlContent]
    (lines 100-162), in order; [~] stands for a double quote. *)
Definition tpl_0 : string := decode_tpl "
<!DOCTYPE html>
<html lang=~en~>
<head>
    <meta charset=~UTF-8~>
    <meta name=~viewport~ content=~width=device-width, initial-scale=1.0~>
    <title>".

Definition tpl_1 : string := decode_tpl " Preview</title>
    <!-- Load Tailwind CSS via CDN -->
    <script src=~https://cdn.tailwindcss.com~></script>
    <style>
        /* This is the 1200x630 container */
        body {
            width: ".

Definition tpl_2 : string := decode_tpl "px;
            height: ".

Definition tpl_3 : string := decode_tpl "px;
            margin: 0;
            padding: 0;
            overflow: hidden;
            font-family: 'Inter', sans-serif;
            background: #0d1117; /* GitHub Dark Mode background */
        }
    </style>
</head>
<body class=~flex items-center justify-center p-12~>
    <div class=~w-full h-full p-8 border-4 border-blue-600 rounded-xl flex flex-col justify-between shadow-2xl bg-gray-900~>
        
        <!-- Header -->
        <div class=~flex items-center justify-between~>
            <h1 class=~text-6xl font-extrabold text-white~>".

Definition tpl_4 : string := decode_tpl "</h1>
            <div class=~text-xl text-gray-500 font-mono~>
                ".

Definition tpl_5 : string := decode_tpl "
            </div>
        </div>

        <!-- Description -->
        <p class=~text-3xl text-gray-300 my-4 line-clamp-2~>
            ".

Definition tpl_6 : string := decode_tpl "
        </p>

        <!-- Footer / Metadata -->
        <div class=~flex justify-between items-end border-t border-gray-700 pt-4~>
            <!-- Language -->
            <div class=~flex flex-col~>
                <span class=~text-sm font-semibold text-gray-400~>LANGUAGE</span>
                <span class=~text-2xl font-bold ".

Definition tpl_7 : string := decode_tpl "~>".

Definition tpl_8 : string := decode_tpl "</span>
            </div>
            
            <!-- Stats -->
            <div class=~flex space-x-8 text-right~>
                <div class=~flex flex-col items-center~>
                    <span class=~text-sm font-semibold text-gray-400~>STARS</span>
                    <span class=~text-3xl font-bold text-yellow-300~>".

Definition tpl_9 : string := decode_tpl "</span>
                </div>
                <div class=~flex flex-col items-center~>
                    <span class=~text-sm font-semibold text-gray-400~>FORKS</span>
                    <span class=~text-3xl font-bold text-gray-300~>".

Definition tpl_10 : string := decode_tpl "</span>
                </div>
            </div>
        </div>
        
    </div>
</body>
</html>
    ".

Definition generateHtmlContent (repoData : card_data) : string :=
  tpl_0 ++ js_to_string (name repoData)
  ++ tpl_1 ++ string_of_Z THUMBNAIL_WIDTH
  ++ tpl_2 ++ string_of_Z THUMBNAIL_HEIGHT
  ++ tpl_3 ++ js_to_string (name repoData)
  ++ tpl_4 ++ TARGET_ORG
  ++ tpl_5 ++ js_to_string (description repoData)
  ++ tpl_6 ++ languageColor (language repoData)
  ++ tpl_7 ++ js_to_string (language repoData)
  ++ tpl_8 ++ js_to_string (stars repoData)
  ++ tpl_9 ++ js_to_string (forks repoData)
  ++ tpl_10.

(** ** Effects *)

(** Outcome of an [await]ed promise. *)
Inductive settled (A : Type) : Type :=
| Resolved (a : A)
| Rejected (message : string).
Arguments Resolved {A} a.
Arguments Rejected {A} message.

Inductive log_entry : Type :=
| LogInfo (s : string)
| LogError (s : string).

(** Outcome of [fs.rm(dirPath, { recursive: true, force: true })]: it
    resolves, or rejects with an error whose [code] and [message] are
    given. *)
Inductive rm_outcome : Type :=
| RmOk
| RmFail (code : jsval) (message : string).

(** [removeDirectory] (generate_preview_script.js lines 23-32; identical
    in part_000 lines 29-38 and part_001 lines 19-30). *)
Definition removeDirectory (rm : rm_outcome) (dirPath : string)
  : settled unit * list log_entry :=
  match rm with
  | RmOk => (Resolved tt, [LogInfo ("Successfully removed directory: " ++ dirPath)])
  | RmFail code message =>
      (Resolved tt,
       if negb (js_strict_eq code (JStr "ENOENT"))
       then [LogError ("Error removing directory " ++ dirPath ++ ": " ++ message)]
       else [])
  end.

(** ** Provider responses *)

(** One repository object of the GitHub API JSON.  A missing field is
    [JUndefined].  [rj_owner_login] is [repo.owner.login]; [None] when
    [repo.owner] is itself missing, so that reading [.login] throws. *)
Record repo_json : Type := mkRepo {
  rj_name : jsval;
  rj_description : jsval;
  rj_language : jsval;
  rj_stargazers_count : jsval;
  rj_forks_count : jsval;
  rj_updated_at : jsval;
  rj_html_url : jsval;
  rj_owner_login : option jsval
}.

(** A [fetch] response: [response.ok], [response.status], the result of
    [await response.json()] ([None] when it rejects) and the [link]
    header. *)
Record response (B : Type) : Type := mkResponse {
  resp_ok : bool;
  resp_status : Z;
  resp_json : option B;
  resp_link : option string
}.
Arguments mkResponse {B} _ _ _ _.
Arguments resp_ok {B} _.
Arguments resp_status {B} _.
Arguments resp_json {B} _.
Arguments resp_link {B} _.

(** [await fetch(url, ...)] as a function of the URL; [None] is a
    transport failure (the promise rejects). *)
Definition fetcher (B : Type) : Type := string -> option (response B).

(** [process.env.X] is a string or [undefined]; [!token] is its falsiness. *)
Definition token_truthy (t : option string) : bool :=
  match t with
  | Some s => truthy (JStr s)
  | None => false
  end.

Section Fetchers.

(** [new Date(v).toLocaleDateString()] and
    [new Date().toLocaleDateString()]: host-dependent, always strings. *)
Variable localeDateString : jsval -> string.
Variable currentDateString : string.

(** The object literal of generate_preview_script.js lines 65-73 and
    part_000 lines 76-84. *)
Definition repo_to_card (repo : repo_json) : card_data :=
  {| name := rj_name repo;
     description := js_or (rj_description repo) (JStr "No description provided.");
     language := js_or (rj_language repo) (JStr "N/A");
     stars := rj_stargazers_count repo;
     forks := rj_forks_count repo;
     updated_at := localeDateString (rj_updated_at repo);
     html_url := rj_html_url repo |}.

Definition orgs_repos_url : string :=
  "https://api.github.com/orgs/" ++ TARGET_ORG ++ "/repos?per_page=100&type=all".

(** [fetchRepositories] (generate_preview_script.js lines 40-79).  The
    token only goes into a request header, so it is not an argument. *)
Definition fetchRepositories (fetch : fetcher (list repo_json)) : list card_data :=
  match fetch orgs_repos_url with
  | None => []
  | Some response =>
      if negb (resp_ok response) then []
      else match resp_json response with
           | None => []
           | Some data =>
               let repositories :=
                 filter (fun repo => negb (js_strict_eq (rj_name repo) (JStr REPO_NAME))) data in
               map repo_to_card repositories
           end
  end.

End Fetchers.

Module Part000.
Section Details.
Variable localeDateString : jsval -> string.
Variable currentDateString : string.

Definition TARGET_REPOS : list string := ["Repo-Example-1"; "Repo-Example-2"].

Definition details_url (repoName : string) : string :=
  "https://api.github.com/repos/" ++ TARGET_ORG ++ "/" ++ repoName.

(** The placeholder of part_000 lines 63-71. *)
Definition placeholder (repoName : string) : card_data :=
  {| name := JStr repoName;
     description := JStr "Could not fetch description from GitHub API.";
     language := JStr "Unknown";
     stars := JNum 0;
     forks := JNum 0;
     updated_at := currentDateString;
     html_url := JStr ("https://github.com/" ++ TARGET_ORG ++ "/" ++ repoName) |}.

(** [fetchRepositoryDetails] (part_000 lines 48-90); [None] is [null]. *)
Definition fetchRepositoryDetails (fetch : fetcher repo_json) (repoName : string)
  : option card_data :=
  match fetch (details_url repoName) with
  | None => None
  | Some response =>
      if negb (resp_ok response) then Some (placeholder repoName)
      else match resp_json response with
           | None => None
           | Some repo => Some (repo_to_card localeDateString repo)
           end
  end.

(** The collecting loop of [main] (part_000 lines 237-245):
    [if (data) REPOSITORIES_DATA.push(data)]. *)
Fixpoint collectDetails (fetch : fetcher repo_json) (names : list string)
  : list card_data :=
  match names with
  | [] => []
  | repoName :: rest =>
      match fetchRepositoryDetails fetch repoName with
      | Some data => data :: collectDetails fetch rest
      | None => collectDetails fetch rest
      end
  end.


(** The renderer of part_000 (lines 100-173): the same template as
    generate_preview_script.js without the CSS comment line, and a color
    table with an extra ['Unknown'] entry. *)
Definition languageColor (lang : jsval) : string :=
  match js_to_string lang with
  | "JavaScript" => "text-yellow-400"
  | "TypeScript" => "text-blue-500"
  | "Python" => "text-green-500"
  | "HTML" => "text-red-500"
  | "CSS" => "text-indigo-500"
  | "N/A" => "text-gray-400"
  | "Unknown" => "text-gray-400"
  | k => match proto_member k with
         | Some s => s
         | None => "text-gray-400"
         end
  end.

Definition tpl_0 : string := decode_tpl "
<!DOCTYPE html>
<html lang=~en~>
<head>
    <meta charset=~UTF-8~>
    <meta name=~viewport~ content=~width=device-width, initial-scale=1.0~>
    <title>".

Definition tpl_1 : string := decode_tpl " Preview</title>
    <!-- Load Tailwind CSS via CDN -->
    <script src=~https://cdn.tailwindcss.com~></script>
    <style>
        body {
            width: ".

Definition tpl_2 : string := decode_tpl "px;
            height: ".

Definition tpl_3 : string := decode_tpl "px;
            margin: 0;
            padding: 0;
            overflow: hidden;
            font-family: 'Inter', sans-serif;
            background: #0d1117; /* GitHub Dark Mode background */
        }
    </style>
</head>
<body class=~flex items-center justify-center p-12~>
    <div class=~w-full h-full p-8 border-4 border-blue-600 rounded-xl flex flex-col justify-between shadow-2xl bg-gray-900~>
        
        <!-- Header -->
        <div class=~flex items-center justify-between~>
            <h1 class=~text-6xl font-extrabold text-white~>".

Definition tpl_4 : string := decode_tpl "</h1>
            <div class=~text-xl text-gray-500 font-mono~>
                ".

Definition tpl_5 : string := decode_tpl "
            </div>
        </div>

        <!-- Description -->
        <p class=~text-3xl text-gray-300 my-4 line-clamp-2~>
            ".

Definition tpl_6 : string := decode_tpl "
        </p>

        <!-- Footer / Metadata -->
        <div class=~flex justify-between items-end border-t border-gray-700 pt-4~>
            <!-- Language -->
            <div class=~flex flex-col~>
                <span class=~text-sm font-semibold text-gray-400~>LANGUAGE</span>
                <span class=~text-2xl font-bold ".

Definition tpl_7 : string := decode_tpl "~>".

Definition tpl_8 : string := decode_tpl "</span>
            </div>
            
            <!-- Stats -->
            <div class=~flex space-x-8 text-right~>
                <div class=~flex flex-col items-center~>
                    <span class=~text-sm font-semibold text-gray-400~>STARS</span>
                    <span class=~text-3xl font-bold text-yellow-300~>".

Definition tpl_9 : string := decode_tpl "</span>
                </div>
                <div class=~flex flex-col items-center~>
                    <span class=~text-sm font-semibold text-gray-400~>FORKS</span>
                    <span class=~text-3xl font-bold text-gray-300~>".

Definition tpl_10 : string := decode_tpl "</span>
                </div>
            </div>
        </div>
        
    </div>
</body>
</html>
    ".

Definition generateHtmlContent (repoData : card_data) : string :=
  tpl_0 ++ js_to_string (name repoData)
  ++ tpl_1 ++ string_of_Z THUMBNAIL_WIDTH
  ++ tpl_2 ++ string_of_Z THUMBNAIL_HEIGHT
  ++ tpl_3 ++ js_to_string (name repoData)
  ++ tpl_4 ++ TARGET_ORG
  ++ tpl_5 ++ js_to_string (description repoData)
  ++ tpl_6 ++ languageColor (language repoData)
  ++ tpl_7 ++ js_to_string (language repoData)
  ++ tpl_8 ++ js_to_string (stars repoData)
  ++ tpl_9 ++ js_to_string (forks repoData)
  ++ tpl_10.

End Details.
End Part000.

Module Part001.

Definition user_repos_url (page : nat) : string :=
  "https://api.github.com/user/repos?per_page=100&page=" ++ string_of_Z (Z.of_nat page).

(** The text [rel="next"]. *)
Definition rel_next : string := "rel=" ++ String dq ("next" ++ String dq EmptyString).

(** [data.filter(repo => repo.owner.login === TARGET_ORG)]; [None] when
    some [repo.owner] is missing and the callback throws. *)
Fixpoint owner_filter (data : list repo_json) : option (list repo_json) :=
  match data with
  | [] => Some []
  | repo :: rest =>
      match rj_owner_login repo with
      | None => None
      | Some login =>
          match owner_filter rest with
          | None => None
          | Some kept =>
              Some (if js_strict_eq login (JStr TARGET_ORG) then repo :: kept else kept)
          end
      end
  end.

(** The [while (hasNextPage)] loop of [fetchRepositoryNames] (part_001
    lines 51-90), run for at most [fuel] iterations; [None] means the
    loop had not ended within [fuel] iterations.  Every failure inside the
    [try] sets [hasNextPage = false] and leaves [allRepoNames] as it was. *)
Fixpoint names_loop (fetch : fetcher (list repo_json)) (fuel page : nat)
  (allRepoNames : list jsval) : option (list jsval) :=
  match fuel with
  | O => None
  | S fuel' =>
      match fetch (user_repos_url page) with
      | None => Some allRepoNames
      | Some response =>
          if negb (resp_ok response) then Some allRepoNames
          else match resp_json response with
               | None => Some allRepoNames
               | Some data =>
                   let hasNextPage :=
                     match resp_link response with
                     | Some linkHeader => contains rel_next linkHeader
                     | None => false
                     end in
                   match owner_filter data with
                   | None => Some allRepoNames
                   | Some owned =>
                       let names :=
                         map rj_name
                           (filter (fun repo => negb (js_strict_eq (rj_name repo)
                                                        (JStr "Catalog_of_Repos"))) owned) in
                       if hasNextPage
                       then names_loop fetch fuel' (S page) (allRepoNames ++ names)%list
                       else Some (allRepoNames ++ names)%list
                   end
               end
      end
  end.

(** [fetchRepositoryNames] (part_001 lines 37-95). *)
Definition fetchRepositoryNames (token : option string)
  (fetch : fetcher (list repo_json)) (fuel : nat) : option (list jsval) :=
  if negb (token_truthy token) then Some []
  else names_loop fetch fuel 1 [].


(** [fetchRepoDetails] (part_001 lines 102-121): the raw JSON object, or
    [null] ([None]) on a rejected fetch, a non-success status or a body
    that does not parse. *)
Definition fetchRepoDetails (fetch : fetcher repo_json) (repoName : string)
  : option repo_json :=
  match fetch ("https://api.github.com/repos/" ++ TARGET_ORG ++ "/" ++ repoName) with
  | None => None
  | Some response =>
      if negb (resp_ok response) then None else resp_json response
  end.

(** [s.replace(/-/g, ' ')]. *)
Fixpoint replace_hyphens (s : string) : string :=
  match s with
  | EmptyString => EmptyString
  | String c s' => String (if Ascii.eqb c "-"%char then " "%char else c) (replace_hyphens s')
  end.

(** [v.replace(/-/g, ' ')] on a JS value: only strings have [replace]; on
    any other value the call throws ([None]). *)
Definition js_replace_hyphens (v : jsval) : option string :=
  match v with
  | JStr s => Some (replace_hyphens s)
  | _ => None
  end.

Section Render.
(** [n.toLocaleString()] for a number [n]: host-dependent digit grouping. *)
Variable localeNumber : Z -> string.

(** [v.toLocaleString()]: a string returns itself, a boolean its text;
    [undefined] and [null] have no methods and throw. *)
Definition js_toLocaleString (v : jsval) : option string :=
  match v with
  | JNum z => Some (localeNumber z)
  | JStr s => Some s
  | JBool true => Some "true"
  | JBool false => Some "false"
  | JUndefined | JNull => None
  end.

Definition tpl_0 : string := decode_tpl "
<!DOCTYPE html>
<html lang=~en~>
<head>
    <meta charset=~UTF-8~>
    <meta name=~viewport~ content=~width=device-width, initial-scale=1.0~>
    <title>".

Definition tpl_1 : string := decode_tpl " Social Card</title>
    <!-- Tailwind CSS CDN -->
    <script src=~https://cdn.tailwindcss.com~></script>
    <style>
        @import url('https://fonts.googleapis.com/css2?family=Inter:wght@400;600;800&display=swap');
        body {
            font-family: 'Inter', sans-serif;
            margin: 0;
            width: 1200px;
            height: 630px;
            overflow: hidden;
        }
    </style>
</head>
<body class=~bg-gray-900 flex items-center justify-center p-12~>
    <div class=~w-full h-full bg-gray-800 rounded-2xl shadow-2xl flex flex-col justify-between p-16 border-4 border-indigo-500~>
        <!-- Header/Title -->
        <div>
            <h1 class=~text-6xl font-extrabold text-indigo-400 leading-tight~>
                ".

Definition tpl_2 : string := decode_tpl "
            </h1>
            <p class=~text-2xl text-gray-300 mt-4 h-20 overflow-hidden~>
                ".

Definition tpl_3 : string := decode_tpl "
            </p>
        </div>

        <!-- Footer/Metadata -->
        <div class=~flex justify-between items-end text-xl text-gray-400 pt-8 border-t border-gray-700~>
            <!-- Left: Language & Organization -->
            <div class=~flex items-center space-x-6~>
                <span class=~font-semibold text-lg text-white bg-indigo-600 px-4 py-1 rounded-full shadow-lg~>
                    ".

Definition tpl_4 : string := decode_tpl "
                </span>
                <span class=~text-gray-500~>
                    ● ".

Definition tpl_5 : string := decode_tpl "
                </span>
            </div>
            
            <!-- Right: Stars -->
            <div class=~flex items-center text-yellow-400 font-bold text-3xl~>
                <!-- Star Icon (Inline SVG) -->
                <svg class=~w-8 h-8 mr-2~ fill=~currentColor~ viewBox=~0 0 20 20~>
                    <path d=~M9.049 2.927c.3-.921 1.638-.921 1.94 0l1.247 3.823a1 1 0 00.95.69h4.037c.969 0 1.371 1.24.588 1.81l-3.266 2.373a1 1 0 00-.364 1.118l1.247 3.823c.3.921-.755 1.688-1.54 1.118l-3.266-2.373a1 1 0 00-1.176 0l-3.266 2.373c-.785.57-1.84-.197-1.54-1.118l1.247-3.823a1 1 0 00-.364-1.118L2.27 9.25c-.783-.57-.381-1.81.588-1.81h4.037a1 1 0 00.95-.69l1.247-3.823z~></path>
                </svg>
                ".

Definition tpl_6 : string := decode_tpl "
            </div>
        </div>
    </div>
</body>
</html>
    ".

(** [generateHtmlContent] of part_001 (lines 128-192); [None] when the
    template throws. *)
Definition generateHtmlContent (details : repo_json) : option string :=
  let repoName := js_or (rj_name details) (JStr "Unknown Repository") in
  let description := js_or (rj_description details) (JStr "A project hosted on GitHub.") in
  let language := js_or (rj_language details) (JStr "Mixed") in
  let stars := js_or (rj_stargazers_count details) (JNum 0) in
  match js_replace_hyphens repoName with
  | None => None
  | Some heading =>
      match js_toLocaleString stars with
      | None => None
      | Some starText =>
          Some (tpl_0 ++ js_to_string repoName
                ++ tpl_1 ++ heading
                ++ tpl_2 ++ js_to_string description
                ++ tpl_3 ++ js_to_string language
                ++ tpl_4 ++ TARGET_ORG
                ++ tpl_5 ++ starText
                ++ tpl_6)
      end
  end.

End Render.

End Part001.

Module Part002.

Definition public_repos_url : string :=
  "https://api.github.com/orgs/" ++ TARGET_ORG ++ "/repos?type=public".

(** [fetchRepositories] of the clone-based variant (part_002 lines 41-74). *)
Definition fetchRepositories (fetch : fetcher (list repo_json)) : list jsval :=
  match fetch public_repos_url with
  | None => []
  | Some response =>
      if negb (resp_ok response) then []
      else match resp_json response with
           | None => []
           | Some data => map rj_name data
           end
  end.

End Part002.

(** ** Orchestrator of generate_preview_script.js *)

(** Which awaited browser call of [generatePreviewCard] rejects first for
    a target, if any. *)
Inductive capture_fault : Type :=
| CaptureOk
| NewPageFails
| SetViewportFails
| SetContentFails
| ScreenshotFails
| PageCloseFails.

(** Files written into [OUTPUT_DIR] during the run, and pages of the
    shared browser that are open. *)
Record run_state : Type := mkRunState {
  written : list string;
  open_pages : nat
}.

Definition open_page (st : run_state) : run_state :=
  mkRunState (written st) (S (open_pages st)).
Definition write_file (f : string) (st : run_state) : run_state :=
  mkRunState (written st ++ [f])%list (open_pages st).
Definition close_page (st : run_state) : run_state :=
  mkRunState (written st) (pred (open_pages st)).

(** [generatePreviewCard] (lines 172-206): every step sits in one [try]
    whose [catch] only logs, so the function always resolves; the state
    reached when a step rejects is kept. *)
Definition generatePreviewCard (fault : capture_fault) (repoData : card_data)
  (st : run_state) : run_state :=
  let outputFile := js_to_string (name repoData) ++ ".png" in
  let _htmlContent := generateHtmlContent repoData in
  match fault with
  | NewPageFails => st
  | SetViewportFails | SetContentFails | ScreenshotFails => open_page st
  | PageCloseFails => write_file outputFile (open_page st)
  | CaptureOk => close_page (write_file outputFile (open_page st))
  end.

(** The outcome of everything [main] awaits. *)
Record run_env : Type := mkRunEnv {
  env_token : option string;
  env_rm : string -> rm_outcome;
  env_mkdir_ok : bool;
  env_fetch : fetcher (list repo_json);
  env_launch_ok : bool;
  env_capture : string -> capture_fault;
  env_close_ok : bool
}.

(** The processing loop (lines 248-250). *)
Fixpoint processingLoop (env : run_env) (repos : list card_data) (st : run_state)
  : run_state :=
  match repos with
  | [] => st
  | repoData :: rest =>
      processingLoop env rest
        (generatePreviewCard (env_capture env (js_to_string (name repoData))) repoData st)
  end.

Definition initial_state : run_state := mkRunState [] 0.

(** The [finally] block (lines 256-267).  A rejected [browser.close()]
    makes the promise of [main()] reject, and Node ends the process with
    exit code 1 on the unhandled rejection. *)
Definition teardown (env : run_env) (browser : bool) (st : run_state) : Z * run_state :=
  if browser && negb (env_close_ok env) then (1%Z, st)
  else match fst (removeDirectory (env_rm env CLONE_DIR) CLONE_DIR) with
       | Rejected _ => (1%Z, st)
       | Resolved _ => (0%Z, st)
       end.

Section Main.
Variable localeDateString : jsval -> string.

(** [main] (lines 211-268): the exit code and the final state.
    [process.exit(1)] ends the process at once, without the [finally]. *)
Definition main (env : run_env) : Z * run_state :=
  if negb (token_truthy (env_token env)) then (1%Z, initial_state)
  else
    match fst (removeDirectory (env_rm env CLONE_DIR) CLONE_DIR) with
    | Rejected _ => (1%Z, initial_state)
    | Resolved _ =>
      match fst (removeDirectory (env_rm env OUTPUT_DIR) OUTPUT_DIR) with
      | Rejected _ => (1%Z, initial_state)
      | Resolved _ =>
        if negb (env_mkdir_ok env) then (1%Z, initial_state)
        else
          match fetchRepositories localeDateString (env_fetch env) with
          | [] => teardown env false initial_state
          | REPOSITORIES =>
              if negb (env_launch_ok env) then (1%Z, initial_state)
              else teardown env true (processingLoop env REPOSITORIES initial_state)
          end
      end
    end.

End Main.

(** ** Orchestrator of part_000 *)

Module Part000Main.
Section Run.
Variable localeDateString : jsval -> string.
Variable currentDateString : string.

(** [main] of part_000 (lines 220-285).  The list fetch of [env] is not
    used: targets come from [TARGET_REPOS] through [detailsFetch].  Its
    [generatePreviewCard] (lines 182-215) is the one of
    generate_preview_script.js, rendering with [Part000.generateHtmlContent]
    (the model does not inspect the markup). *)
Definition main (env : run_env) (detailsFetch : fetcher repo_json) : Z * run_state :=
  if negb (token_truthy (env_token env)) then (1%Z, initial_state)
  else
    match fst (removeDirectory (env_rm env CLONE_DIR) CLONE_DIR) with
    | Rejected _ => (1%Z, initial_state)
    | Resolved _ =>
      match fst (removeDirectory (env_rm env OUTPUT_DIR) OUTPUT_DIR) with
      | Rejected _ => (1%Z, initial_state)
      | Resolved _ =>
        if negb (env_mkdir_ok env) then (1%Z, initial_state)
        else
          match Part000.collectDetails localeDateString currentDateString detailsFetch
                  Part000.TARGET_REPOS with
          | [] => teardown env false initial_state
          | REPOSITORIES_DATA =>
              if negb (env_launch_ok env) then (1%Z, initial_state)
              else teardown env true (processingLoop env REPOSITORIES_DATA initial_state)
          end
      end
    end.

End Run.
End Part000Main.

(** ** Orchestrator of part_001 *)

Module Part001Main.
Section Run.
Variable localeNumber : Z -> string.

(** [processRepository] of part_001 (lines 200-233): the artifact is named
    after the listed [repoName]; a throwing [generateHtmlContent] is caught
    like a rejected browser call. *)
Definition processRepository (fault : capture_fault) (repoName : string)
  (details : repo_json) (st : run_state) : run_state :=
  let outputFile := repoName ++ ".png" in
  match fault with
  | NewPageFails => st
  | SetViewportFails => open_page st
  | _ =>
      let st1 := open_page st in
      match Part001.generateHtmlContent localeNumber details with
      | None => st1
      | Some _ =>
          match fault with
          | CaptureOk => close_page (write_file outputFile st1)
          | PageCloseFails => write_file outputFile st1
          | _ => st1
          end
      end
  end.

(** The processing loop of [main] (lines 276-284).  The names only reach
    template literals (URL, log, output path), i.e. as [String(name)]. *)
Fixpoint processingLoop (env : run_env) (detailsFetch : fetcher repo_json)
  (names : list jsval) (st : run_state) : run_state :=
  match names with
  | [] => st
  | n :: rest =>
      let repoName := js_to_string n in
      processingLoop env detailsFetch rest
        match Part001.fetchRepoDetails detailsFetch repoName with
        | Some details => processRepository (env_capture env repoName) repoName details st
        | None => st
        end
  end.

(** The [finally] block (lines 291-298). *)
Definition teardown (env : run_env) (browser : bool) (st : run_state) : Z * run_state :=
  if browser && negb (env_close_ok env) then (1%Z, st) else (0%Z, st).

(** [main] of part_001 (lines 238-300), run with [fuel] iterations of the
    listing loop ([None] when the loop had not ended). *)
Definition main (env : run_env) (detailsFetch : fetcher repo_json) (fuel : nat)
  : option (Z * run_state) :=
  if negb (token_truthy (env_token env)) then Some (1%Z, initial_state)
  else
    match fst (removeDirectory (env_rm env OUTPUT_DIR) OUTPUT_DIR) with
    | Rejected _ => Some (1%Z, initial_state)
    | Resolved _ =>
      if negb (env_mkdir_ok env) then Some (1%Z, initial_state)
      else
        match Part001.fetchRepositoryNames (env_token env) (env_fetch env) fuel with
        | None => None
        | Some [] => Some (teardown env false initial_state)
        | Some REPO_NAMES =>
            if negb (env_launch_ok env) then Some (1%Z, initial_state)
            else Some (teardown env true
                         (processingLoop env detailsFetch REPO_NAMES initial_state))
        end
    end.

End Run.
End Part001Main.

(** ** Clone-based orchestrators of part_002 *)

(** Artifacts and clone directories on disk. *)
Record clone_state : Type := mkCloneState {
  cs_run : run_state;
  cs_clones : list string
}.

Definition add_clone (dir : string) (st : clone_state) : clone_state :=
  mkCloneState (cs_run st) (cs_clones st ++ [dir])%list.

Definition remove_clone (dir : string) (st : clone_state) : clone_state :=
  mkCloneState (cs_run st) (filter (fun d => negb (String.eqb d dir)) (cs_clones st)).

Definition clone_state0 : clone_state := mkCloneState initial_state [].

(** The members of [require('fs').promises]. *)
Definition fs_promises_members : list string :=
  ["access"; "appendFile"; "chmod"; "chown"; "constants"; "copyFile"; "cp";
   "glob"; "lchown"; "link"; "lstat"; "lutimes"; "mkdir"; "mkdtemp"; "open";
   "opendir"; "readFile"; "readdir"; "readlink"; "realpath"; "rename"; "rm";
   "rmdir"; "stat"; "statfs"; "symlink"; "truncate"; "unlink"; "utimes";
   "watch"; "writeFile"].

Definition fs_promises_has (member : string) : bool :=
  existsb (String.eqb member) fs_promises_members.

Module Part002Clone.

(** Outcomes of the awaited calls of the first clone-based script
    (part_002 lines 22-203).  [ce_capture] gives the first rejecting page
    call; [SetContentFails] stands for [page.goto] or [page.title]
    rejecting. *)
Record clone_env : Type := mkCloneEnv {
  ce_rimraf_ok : string -> bool;
  ce_mkdir_ok : bool;
  ce_fetch : fetcher (list repo_json);
  ce_launch_ok : bool;
  ce_clone_ok : string -> bool;
  ce_has_index : string -> bool;
  ce_capture : string -> capture_fault;
  ce_close_ok : bool
}.

Definition clone_path (repoName : string) : string := CLONE_DIR ++ "/" ++ repoName.

(** newPage, setViewport, goto, title, screenshot, close. *)
Definition page_steps (fault : capture_fault) (outputFile : string) (rs : run_state)
  : run_state :=
  match fault with
  | NewPageFails => rs
  | SetViewportFails | SetContentFails | ScreenshotFails => open_page rs
  | PageCloseFails => write_file outputFile (open_page rs)
  | CaptureOk => close_page (write_file outputFile (open_page rs))
  end.

(** [processRepository] (lines 82-142).  [path.join(CLONE_DIR, repoName)]
    runs before the [try] and throws on a non-string name, so the call
    rejects. *)
Definition processRepository (env : clone_env) (n : jsval) (st : clone_state)
  : settled clone_state :=
  match n with
  | JStr repoName =>
      Resolved
        (if negb (ce_clone_ok env repoName) then st
         else
           let st1 := add_clone (clone_path repoName) st in
           if negb (ce_has_index env repoName) then st1
           else mkCloneState
                  (page_steps (ce_capture env repoName) (repoName ++ ".png") (cs_run st1))
                  (cs_clones st1))
  | _ => Rejected "TypeError [ERR_INVALID_ARG_TYPE]"
  end.

(** The processing loop; [Some msg] when a call rejected. *)
Fixpoint processingLoop (env : clone_env) (repos : list jsval) (st : clone_state)
  : option string * clone_state :=
  match repos with
  | [] => (None, st)
  | n :: rest =>
      match processRepository env n st with
      | Rejected msg => (Some msg, st)
      | Resolved st' => processingLoop env rest st'
      end
  end.

(** The [finally] block (lines 186-200): [fs] is [require('fs').promises]
    here, so [fs.existsSync] is not a function when it has no such
    member, and the [TypeError] makes [main()] reject (exit code 1). *)
Definition teardown (env : clone_env) (browser : bool) (st : clone_state) : Z * clone_state :=
  if browser && negb (ce_close_ok env) then (1%Z, st)
  else if negb (fs_promises_has "existsSync") then (1%Z, st)
  else if ce_rimraf_ok env CLONE_DIR then (0%Z, mkCloneState (cs_run st) [])
  else (1%Z, st).

(** [main] (lines 147-201); a missing token only logs a warning. *)
Definition main (env : clone_env) : Z * clone_state :=
  if negb (ce_rimraf_ok env CLONE_DIR) then (1%Z, clone_state0)
  else if negb (ce_rimraf_ok env OUTPUT_DIR) then (1%Z, clone_state0)
  else if negb (ce_mkdir_ok env) then (1%Z, clone_state0)
  else
    match Part002.fetchRepositories (ce_fetch env) with
    | [] => teardown env false clone_state0
    | REPOSITORIES =>
        if negb (ce_launch_ok env) then (1%Z, clone_state0)
        else match processingLoop env REPOSITORIES clone_state0 with
             | (Some _, st) => (1%Z, st)
             | (None, st) => teardown env true st
             end
    end.

End Part002Clone.

Module Part002Multi.

(** Outcomes for [runGenerator] (part_002 lines 321-444).  [me_clone_ok]
    covers creating [temp-clone] and [git.clone]; [me_rimraf_ok] is the
    outcome of the promisified [rimraf] per path. *)
Record multi_env : Type := mkMultiEnv {
  me_token : option string;
  me_output_exists : bool;
  me_mkdir_ok : bool;
  me_launch_ok : bool;
  me_clone_ok : string -> bool;
  me_has_index : string -> bool;
  me_capture : string -> capture_fault;
  me_rimraf_ok : string -> bool;
  me_close_ok : bool
}.

Definition REPOSITORIES : list string :=
  ["repo-a-dashboard"; "repo-b-analytics"; "repo-c-reports"].

Definition TEMP_ROOT : string := "temp-clone".
Definition TEMP_DIR (repoName : string) : string := TEMP_ROOT ++ "/" ++ repoName.

(** [generateThumbnail(repoName, browser)] (lines 321-403).  With the
    index file missing the page is closed before returning; the [finally]
    removes [TEMP_DIR], a failure there being caught. *)
Definition generateThumbnail (env : multi_env) (repoName : string) (st : clone_state)
  : clone_state :=
  if negb (token_truthy (me_token env)) then st
  else
    let outputFile := repoName ++ ".png" in
    let fault := me_capture env repoName in
    let after_try :=
      if negb (me_clone_ok env repoName) then st
      else
        let st1 := add_clone (TEMP_DIR repoName) st in
        match fault with
        | NewPageFails => st1
        | SetViewportFails => mkCloneState (open_page (cs_run st1)) (cs_clones st1)
        | _ =>
            let rs := open_page (cs_run st1) in
            let rs' :=
              if negb (me_has_index env repoName)
              then match fault with PageCloseFails => rs | _ => close_page rs end
              else match fault with
                   | CaptureOk => close_page (write_file outputFile rs)
                   | PageCloseFails => write_file outputFile rs
                   | _ => rs
                   end in
            mkCloneState rs' (cs_clones st1)
        end in
    if me_rimraf_ok env (TEMP_DIR repoName) then remove_clone (TEMP_DIR repoName) after_try
    else after_try.

Fixpoint processingLoop (env : multi_env) (repos : list string) (st : clone_state)
  : clone_state :=
  match repos with
  | [] => st
  | repo :: rest => processingLoop env rest (generateThumbnail env repo st)
  end.

(** [runGenerator] (lines 405-442): a rejected [browser.close()] in the
    [finally] skips the last cleanup and makes the call reject (exit 1). *)
Definition runGenerator (env : multi_env) : Z * clone_state :=
  if negb (me_output_exists env) && negb (me_mkdir_ok env) then (1%Z, clone_state0)
  else if negb (me_launch_ok env) then (1%Z, clone_state0)
  else
    let st := processingLoop env REPOSITORIES clone_state0 in
    if negb (me_close_ok env) then (1%Z, st)
    else if me_rimraf_ok env TEMP_ROOT then (0%Z, mkCloneState (cs_run st) [])
    else (0%Z, st).

End Part002Multi.

(** ** Auxiliary definitions for the statements *)

(** Faults after which the artifact of the target exists. *)
Definition writes_file (fault : capture_fault) : bool :=
  match fault with
  | CaptureOk | PageCloseFails => true
  | _ => false
  end.

(** Faults after which the page opened for the target is still open. *)
Definition page_left_open (fault : capture_fault) : bool :=
  match fault with
  | SetViewportFails | SetContentFails | ScreenshotFails | PageCloseFails => true
  | _ => false
  end.

(** The listing call fails outright: transport failure, non-success
    status, or an unparsable body. *)
Definition listing_call_fails {B : Type} (o : option (response B)) : bool :=
  match o with
  | None => true
  | Some r =>
      negb (resp_ok r) || match resp_json r with None => true | Some _ => false end
  end.

Fixpoint repeat_char (n : nat) (c : ascii) : string :=
  match n with
  | O => EmptyString
  | S n' => String c (repeat_char n' c)
  end.

(** The record of the spec's renderer test, with the script's field names
    ([stars], [forks]); [updated_at] and [html_url] are not rendered. *)
Definition demo_card : card_data :=
  {| name := JStr "demo";
     description := JStr (repeat_char 500 "x");
     language := JStr "Go";
     stars := JNum 42;
     forks := JNum 3;
     updated_at := "";
     html_url := JUndefined |}.

(** A GitHub organization holding the repositories [all], answering the
    organization listing 100 per page: the URL without [page] is page 1,
    [&page=n] is page [n], and the [link] header announces the next page
    while there is one. *)
Definition org_page (all : list repo_json) (n : nat) : list repo_json :=
  firstn 100 (skipn ((n - 1) * 100) all).

Definition org_page_url (n : nat) : string :=
  orgs_repos_url ++ "&page=" ++ string_of_Z (Z.of_nat n).

Definition org_page_link (all : list repo_json) (n : nat) : option string :=
  if Nat.ltb (n * 100) (length all)
  then Some ("<https://api.github.com/organizations/repos?page="
             ++ string_of_Z (Z.of_nat (S n)) ++ ">; " ++ Part001.rel_next)
  else None.

Definition org_page_response (all : list repo_json) (n : nat) : response (list repo_json) :=
  mkResponse true 200%Z (Some (org_page all n)) (org_page_link all n).

Definition org_listing_provider (all : list repo_json) : fetcher (list repo_json) :=
  fun url =>
    if String.eqb url orgs_repos_url then Some (org_page_response all 1)
    else match find (fun n => String.eqb url (org_page_url n)) (seq 2 (length all)) with
         | Some n => Some (org_page_response all n)
         | None => None
         end.

(** A repository object with the given name and owner and every other
    field missing. *)
Definition bare_repo (n : string) : repo_json :=
  mkRepo (JStr n) JUndefined JUndefined JUndefined JUndefined JUndefined JUndefined
    (Some (JStr TARGET_ORG)).

Definition ok_listing (data : list repo_json) : fetcher (list repo_json) :=
  fun _ => Some (mkResponse true 200%Z (Some data) None).

(** Targets of part_001's loop whose artifact is written: the details
    request succeeds, the card renders and the screenshot is taken. *)
Definition part001_emits (localeNumber : Z -> string) (env : run_env)
  (detailsFetch : fetcher repo_json) (n : jsval) : bool :=
  let repoName := js_to_string n in
  match Part001.fetchRepoDetails detailsFetch repoName with
  | Some details =>
      writes_file (env_capture env repoName)
      && match Part001.generateHtmlContent localeNumber details with
         | Some _ => true
         | None => false
         end
  | None => false
  end.

(** Whether part_001's [processRepository] leaves the page it opened
    open: every path after [newPage] except the successful [page.close()]
    (a throwing renderer included). *)
Definition part001_page_left_open (fault : capture_fault) (rendered : bool) : bool :=
  match fault with
  | NewPageFails => false
  | CaptureOk => negb rendered
  | _ => true
  end.

(** Targets of part_001's loop whose page stays open. *)
Definition part001_leaves_page (localeNumber : Z -> string) (env : run_env)
  (detailsFetch : fetcher repo_json) (n : jsval) : bool :=
  let repoName := js_to_string n in
  match Part001.fetchRepoDetails detailsFetch repoName with
  | Some details =>
      part001_page_left_open (env_capture env repoName)
        match Part001.generateHtmlContent localeNumber details with
        | Some _ => true
        | None => false
        end
  | None => false
  end.

(** Targets of the first clone-based script of part_002 whose artifact is
    written. *)
Definition clone_emits (env : Part002Clone.clone_env) (repoName : string) : bool :=
  Part002Clone.ce_clone_ok env repoName && Part002Clone.ce_has_index env repoName
  && writes_file (Part002Clone.ce_capture env repoName).

(** Targets of [runGenerator] whose artifact is written. *)
Definition multi_emits (env : Part002Multi.multi_env) (repoName : string) : bool :=
  token_truthy (Part002Multi.me_token env) && Part002Multi.me_clone_ok env repoName
  && Part002Multi.me_has_index env repoName && writes_file (Part002Multi.me_capture env repoName).

(** Targets of [runGenerator] whose clone stays on disk after their own
    cleanup. *)
Definition multi_left_clone (env : Part002Multi.multi_env) (repoName : string) : bool :=
  token_truthy (Part002Multi.me_token env) && Part002Multi.me_clone_ok env repoName
  && negb (Part002Multi.me_rimraf_ok env (Part002Multi.TEMP_DIR repoName)).

(** ** Lemmas on strings *)

Lemma prefix_app (s rest : string) : String.prefix s (s ++ rest) = true.
Proof.
  induction s as [|c s IH]; simpl.
  - destruct rest; reflexivity.
  - destruct (ascii_dec c c) as [_|n]; [exact IH|contradiction].
Qed.

Lemma contains_app_r (pat a b : string) :
  contains pat b = true -> contains pat (a ++ b) = true.
Proof.
  induction a as [|c a IH]; simpl; intros H.
  - exact H.
  - rewrite (IH H). apply orb_true_r.
Qed.

Lemma contains_here (pat rest : string) : contains pat (pat ++ rest) = true.
Proof.
  destruct pat as [|c p]; simpl.
  - destruct rest; reflexivity.
  - destruct (ascii_dec c c) as [_|n]; [|contradiction].
    rewrite prefix_app. reflexivity.
Qed.

(** ** Directory Manager *)

(** C10: [removeDirectory] resolves for every directory and every outcome of
    [fs.rm]; a rejection is logged as an error unless its code is ENOENT,
    in which case nothing is logged. *)
Theorem removeDirectory_never_rejects (rm : rm_outcome) (dirPath : string) :
  fst (removeDirectory rm dirPath) = Resolved tt /\
  match rm with
  | RmOk => True
  | RmFail code _ =>
      (snd (removeDirectory rm dirPath) = [] <-> js_strict_eq code (JStr "ENOENT") = true)
  end.
Proof.
  destruct rm as [|code message]; simpl; split; try exact I; try reflexivity.
  destruct (js_strict_eq code (JStr "ENOENT")); simpl; split; congruence.
Qed.

(** ** Metadata Fetcher *)

(** C1 (counterexample): on a transport failure [fetchRepositoryDetails]
    returns [null], not the placeholder, and [main] drops the target. *)
Lemma fetchRepositoryDetails_transport_failure_null :
  Part000.fetchRepositoryDetails (fun _ => "") "10/15/2026" (fun _ => None) "Repo-Example-1"
    = None /\
  Part000.collectDetails (fun _ => "") "10/15/2026" (fun _ => None) Part000.TARGET_REPOS = [].
Proof. split; reflexivity. Qed.

(** C1 (amended): on a non-success status [fetchRepositoryDetails] returns
    the placeholder (name = the identifier, the fixed "could not fetch"
    description, language "Unknown", counts 0, current date); when the
    fetch call or the JSON parsing rejects it returns [null], and the
    collecting loop of [main] skips that target. *)
Theorem fetchRepositoryDetails_failure_paths
  (ld : jsval -> string) (now : string) (fetch : fetcher repo_json) (repoName : string) :
  (forall r, fetch (Part000.details_url repoName) = Some r -> resp_ok r = false ->
     Part000.fetchRepositoryDetails ld now fetch repoName = Some (Part000.placeholder now repoName)) /\
  (fetch (Part000.details_url repoName) = None ->
     Part000.fetchRepositoryDetails ld now fetch repoName = None) /\
  (forall r, fetch (Part000.details_url repoName) = Some r -> resp_ok r = true ->
     resp_json r = None -> Part000.fetchRepositoryDetails ld now fetch repoName = None) /\
  (forall rest, Part000.fetchRepositoryDetails ld now fetch repoName = None ->
     Part000.collectDetails ld now fetch (repoName :: rest)
     = Part000.collectDetails ld now fetch rest) /\
  (let p := Part000.placeholder now repoName in
   name p = JStr repoName /\
   description p = JStr "Could not fetch description from GitHub API." /\
   language p = JStr "Unknown" /\ stars p = JNum 0 /\ forks p = JNum 0 /\
   updated_at p = now).
Proof.
  unfold Part000.fetchRepositoryDetails.
  repeat split.
  - intros r Hf Hok. rewrite Hf, Hok. reflexivity.
  - intros Hf. rewrite Hf. reflexivity.
  - intros r Hf Hok Hj. rewrite Hf, Hok, Hj. reflexivity.
  - intros rest H. simpl. unfold Part000.fetchRepositoryDetails in *. rewrite H. reflexivity.
Qed.

Lemma fetchRepositoryDetails_failure_paths_witness :
  Part000.fetchRepositoryDetails (fun _ => "") "10/15/2026"
    (fun _ => Some (mkResponse false 404%Z None None)) "Repo-Example-1"
  = Some (Part000.placeholder "10/15/2026" "Repo-Example-1").
Proof.
  apply (proj1 (fetchRepositoryDetails_failure_paths (fun _ => "") "10/15/2026"
                  (fun _ => Some (mkResponse false 404%Z None None)) "Repo-Example-1")
           (mkResponse false 404%Z None None)); reflexivity.
Defined.

(** C4 (counterexample): a provider object without [stargazers_count]
    gives a record whose [stars] is [undefined], in both fetchers. *)
Lemma missing_star_count_not_defaulted :
  map stars (fetchRepositories (fun _ => "") (ok_listing [bare_repo "app"])) = [JUndefined] /\
  option_map stars
    (Part000.fetchRepositoryDetails (fun _ => "") "10/15/2026"
       (fun _ => Some (mkResponse true 200%Z (Some (bare_repo "app")) None)) "app")
  = Some JUndefined.
Proof. split; reflexivity. Qed.

(** C4 (amended): every record the fetchers build from a provider object
    has a non-empty description and language (a falsy value is replaced
    by "No description provided." and "N/A", a truthy one is kept) and a
    date string, while [name], [stars],
    [forks] and [html_url] are copied unchanged, so a field missing from
    the provider stays missing; records of [fetchRepositories] are all
    built this way, those of [fetchRepositoryDetails] this way or as the
    placeholder. *)
Theorem card_fields_defaulting (ld : jsval -> string) (now : string) :
  (forall repo, let c := repo_to_card ld repo in
     truthy (description c) = true /\ truthy (language c) = true /\
     (truthy (rj_description repo) = false -> description c = JStr "No description provided.") /\
     (truthy (rj_description repo) = true -> description c = rj_description repo) /\
     (truthy (rj_language repo) = false -> language c = JStr "N/A") /\
     (truthy (rj_language repo) = true -> language c = rj_language repo) /\
     updated_at c = ld (rj_updated_at repo) /\
     name c = rj_name repo /\ stars c = rj_stargazers_count repo /\
     forks c = rj_forks_count repo /\ html_url c = rj_html_url repo) /\
  (forall fetch c, In c (fetchRepositories ld fetch) -> exists repo, c = repo_to_card ld repo) /\
  (forall fetch repoName c, Part000.fetchRepositoryDetails ld now fetch repoName = Some c ->
     c = Part000.placeholder now repoName \/ exists repo, c = repo_to_card ld repo).
Proof.
  split; [|split].
  - intros repo. cbn.
    unfold js_or.
    destruct (truthy (rj_description repo)) eqn:Hd;
    destruct (truthy (rj_language repo)) eqn:Hl; rewrite ?Hd, ?Hl;
    repeat split; intros; first [reflexivity | discriminate].
  - intros fetch c Hin. unfold fetchRepositories in Hin.
    destruct (fetch orgs_repos_url) as [r|]; [|contradiction].
    destruct (resp_ok r); [|contradiction].
    destruct (resp_json r) as [data|]; [|contradiction].
    apply in_map_iff in Hin. destruct Hin as [repo [Hc _]]. exists repo. now symmetry.
  - intros fetch repoName c H. unfold Part000.fetchRepositoryDetails in H.
    destruct (fetch (Part000.details_url repoName)) as [r|]; [|discriminate].
    destruct (resp_ok r); simpl in H.
    + destruct (resp_json r) as [repo|]; [|discriminate].
      right. exists repo. congruence.
    + left. congruence.
Qed.

Lemma card_fields_defaulting_witness :
  exists repo, In (repo_to_card (fun _ => "") repo)
                  (fetchRepositories (fun _ => "") (ok_listing [bare_repo "app"])) /\
               repo_to_card (fun _ => "") repo = repo_to_card (fun _ => "") (bare_repo "app").
Proof.
  destruct (proj1 (proj2 (card_fields_defaulting (fun _ => "") "10/15/2026"))
              (ok_listing [bare_repo "app"]) (repo_to_card (fun _ => "") (bare_repo "app")))
    as [repo Hrepo].
  - simpl. left. reflexivity.
  - exists repo. split; [rewrite <- Hrepo; simpl; left; reflexivity | now symmetry].
Defined.

(** ** Card Renderer *)

(** C7 (counterexample): a repository name carrying a script element is
    placed into the document unchanged. *)
Lemma renderer_injects_markup :
  contains "<h1 class=" (generateHtmlContent (mkCard (JStr "<script>alert(1)</script>")
            JUndefined JUndefined JUndefined JUndefined "" JUndefined)) = true /\
  contains "<script>alert(1)</script></h1>"
    (generateHtmlContent (mkCard (JStr "<script>alert(1)</script>")
       JUndefined JUndefined JUndefined JUndefined "" JUndefined)) = true.
Proof. split; vm_compute; reflexivity. Qed.

(** C7 (amended): [generateHtmlContent] escapes nothing: the text of the
    name, description, language, star and fork fields ([String(v)]) occurs
    verbatim in the rendered document, whatever characters it holds. *)
Theorem generateHtmlContent_inserts_fields_verbatim (c : card_data) :
  contains (js_to_string (name c)) (generateHtmlContent c) = true /\
  contains (js_to_string (description c)) (generateHtmlContent c) = true /\
  contains (js_to_string (language c)) (generateHtmlContent c) = true /\
  contains (js_to_string (stars c)) (generateHtmlContent c) = true /\
  contains (js_to_string (forks c)) (generateHtmlContent c) = true.
Proof.
  unfold generateHtmlContent.
  repeat split;
  repeat (first [ apply contains_here | apply contains_app_r ]).
Qed.

(** C8 (counterexample): for the spec's demo record the document holds the
    whole 500-character description. *)
Lemma demo_description_not_truncated :
  contains (repeat_char 500 "x") (generateHtmlContent demo_card) = true.
Proof. vm_compute. reflexivity. Qed.

(** C8 (amended): for the demo record the document contains "demo", "42",
    "Go" and the full description text; its shortening is left to the CSS
    class [line-clamp-2] of the enclosing paragraph. *)
Theorem demo_card_rendering :
  contains "demo" (generateHtmlContent demo_card) = true /\
  contains "42" (generateHtmlContent demo_card) = true /\
  contains "Go" (generateHtmlContent demo_card) = true /\
  contains (repeat_char 500 "x") (generateHtmlContent demo_card) = true /\
  contains ("line-clamp-2" ++ String dq ">" ++ "
            " ++ repeat_char 500 "x") (generateHtmlContent demo_card) = true.
Proof. repeat split; vm_compute; reflexivity. Qed.

(** ** Capture Engine and Batch Orchestrator *)

Lemma removeDirectory_resolves (rm : rm_outcome) (dirPath : string) :
  fst (removeDirectory rm dirPath) = Resolved tt.
Proof. destruct rm; reflexivity. Qed.

Lemma generatePreviewCard_open_pages (fault : capture_fault) (repoData : card_data)
  (st : run_state) :
  open_pages (generatePreviewCard fault repoData st)
  = open_pages st + (if page_left_open fault then 1 else 0).
Proof. destruct fault; simpl; lia. Qed.

Lemma generatePreviewCard_written (fault : capture_fault) (repoData : card_data)
  (st : run_state) :
  written (generatePreviewCard fault repoData st)
  = (written st ++ if writes_file fault then [(js_to_string (name repoData) ++ ".png")%string] else [])%list.
Proof. destruct fault; simpl; rewrite ?app_nil_r; reflexivity. Qed.

Lemma processingLoop_open_pages (env : run_env) (repos : list card_data) (st : run_state) :
  open_pages (processingLoop env repos st)
  = open_pages st
    + length (filter (fun r => page_left_open (env_capture env (js_to_string (name r)))) repos).
Proof.
  revert st. induction repos as [|r rest IH]; intros st; simpl; [lia|].
  rewrite IH, generatePreviewCard_open_pages.
  destruct (page_left_open (env_capture env (js_to_string (name r)))); simpl; lia.
Qed.

Lemma processingLoop_written (env : run_env) (repos : list card_data) (st : run_state) :
  written (processingLoop env repos st)
  = (written st ++
     map (fun r => (js_to_string (name r) ++ ".png")%string)
       (filter (fun r => writes_file (env_capture env (js_to_string (name r)))) repos))%list.
Proof.
  revert st. induction repos as [|r rest IH]; intros st; simpl.
  - now rewrite app_nil_r.
  - rewrite IH, generatePreviewCard_written, <- app_assoc.
    destruct (writes_file (env_capture env (js_to_string (name r)))); reflexivity.
Qed.

Lemma teardown_code (env : run_env) (browser : bool) (st : run_state) :
  teardown env browser st
  = ((if browser && negb (env_close_ok env) then 1 else 0)%Z, st).
Proof.
  unfold teardown. destruct (browser && negb (env_close_ok env)); [reflexivity|].
  rewrite removeDirectory_resolves. reflexivity.
Qed.

Lemma part001_processRepository_open_pages (localeNumber : Z -> string)
  (fault : capture_fault) (repoName : string) (details : repo_json) (st : run_state) :
  open_pages (Part001Main.processRepository localeNumber fault repoName details st)
  = open_pages st
    + (if part001_page_left_open fault
            match Part001.generateHtmlContent localeNumber details with
            | Some _ => true
            | None => false
            end
       then 1 else 0).
Proof.
  unfold Part001Main.processRepository.
  destruct fault; destruct (Part001.generateHtmlContent localeNumber details);
    simpl; lia.
Qed.

Lemma part001_processingLoop_open_pages (localeNumber : Z -> string) (env : run_env)
  (detailsFetch : fetcher repo_json) (names : list jsval) :
  forall st,
    open_pages (Part001Main.processingLoop localeNumber env detailsFetch names st)
    = open_pages st
      + length (filter (part001_leaves_page localeNumber env detailsFetch) names).
Proof.
  induction names as [|n rest IH]; intros st; simpl; [lia|].
  rewrite IH. unfold part001_leaves_page at 2.
  destruct (Part001.fetchRepoDetails detailsFetch (js_to_string n)) as [details|].
  - rewrite part001_processRepository_open_pages.
    destruct (part001_page_left_open _ _); simpl; lia.
  - reflexivity.
Qed.

(** C9: a page opened for a target is closed only on the success path,
    in [generatePreviewCard] and in part_001's [processRepository].  When
    [setViewport], [setContent] or [screenshot] rejects (or, in part_001,
    the renderer throws), the target leaves one more open page in the
    shared browser, and over each loop the open pages grow by the number
    of targets that failed after [newPage]. *)
Theorem page_left_open_on_capture_error :
  (forall fault repoData st,
     open_pages (generatePreviewCard fault repoData st)
     = open_pages st + (if page_left_open fault then 1 else 0)) /\
  page_left_open SetViewportFails = true /\ page_left_open SetContentFails = true /\
  page_left_open ScreenshotFails = true /\ page_left_open CaptureOk = false /\
  (forall env repos st,
     open_pages (processingLoop env repos st)
     = open_pages st
       + length (filter (fun r => page_left_open (env_capture env (js_to_string (name r)))) repos)) /\
  (forall localeNumber fault repoName details st,
     open_pages (Part001Main.processRepository localeNumber fault repoName details st)
     = open_pages st
       + (if part001_page_left_open fault
               match Part001.generateHtmlContent localeNumber details with
               | Some _ => true
               | None => false
               end
          then 1 else 0)) /\
  (forall rendered, part001_page_left_open SetViewportFails rendered = true /\
     part001_page_left_open SetContentFails rendered = true /\
     part001_page_left_open ScreenshotFails rendered = true) /\
  part001_page_left_open CaptureOk true = false /\
  (forall localeNumber env detailsFetch names st,
     open_pages (Part001Main.processingLoop localeNumber env detailsFetch names st)
     = open_pages st
       + length (filter (part001_leaves_page localeNumber env detailsFetch) names)).
Proof.
  repeat split.
  - intros. apply generatePreviewCard_open_pages.
  - intros. apply processingLoop_open_pages.
  - intros. apply part001_processRepository_open_pages.
  - intros. apply part001_processingLoop_open_pages.
Qed.

(** A run with one failing capture ([broken-repo]) whose teardown
    [browser.close()] rejects. *)
Definition broken_close_env : run_env :=
  mkRunEnv (Some "ghs_token") (fun _ => RmOk) true
    (ok_listing [bare_repo "good-repo"; bare_repo "broken-repo"]) true
    (fun n => if String.eqb n "broken-repo" then SetContentFails else CaptureOk)
    false.

(** C2 (counterexample): the loop completes with the artifact of
    [good-repo], yet the run exits with 1 because [browser.close()]
    rejects in the [finally] block. *)
Lemma main_close_rejection_exits_nonzero :
  main (fun _ => "") broken_close_env = (1%Z, mkRunState ["good-repo.png"] 1).
Proof. vm_compute. reflexivity. Qed.

(** C2 (amended): per-target capture outcomes never change the exit code:
    it is 1 exactly when the token is missing, the output directory cannot
    be created, or, with a non-empty target list, the browser fails to
    launch or [browser.close()] rejects at teardown; after a launch, the
    artifacts written are those of every target whose screenshot was
    taken, in order. *)
Theorem main_exit_code_and_artifacts (ld : jsval -> string) (env : run_env) :
  let repos := fetchRepositories ld (env_fetch env) in
  fst (main ld env)
  = (if token_truthy (env_token env) && env_mkdir_ok env &&
        match repos with [] => true | _ => env_launch_ok env && env_close_ok env end
     then 0 else 1)%Z /\
  written (snd (main ld env))
  = (if token_truthy (env_token env) && env_mkdir_ok env && env_launch_ok env
     then map (fun r => js_to_string (name r) ++ ".png")
            (filter (fun r => writes_file (env_capture env (js_to_string (name r)))) repos)
     else []).
Proof.
  cbv zeta. unfold main.
  destruct (token_truthy (env_token env)); [|split; reflexivity]; simpl.
  rewrite !removeDirectory_resolves.
  destruct (env_mkdir_ok env); [|split; reflexivity]; simpl.
  destruct (fetchRepositories ld (env_fetch env)) as [|r rest] eqn:Hrepos.
  - rewrite teardown_code. simpl. destruct (env_launch_ok env); split; reflexivity.
  - destruct (env_launch_ok env); cbn -[processingLoop teardown]; [|split; reflexivity].
    rewrite teardown_code. cbn -[processingLoop]. split.
    + destruct (env_close_ok env); reflexivity.
    + rewrite processingLoop_written. simpl.
      rewrite generatePreviewCard_written. simpl.
      destruct (writes_file (env_capture env (js_to_string (name r)))); reflexivity.
Qed.

(** C3: when the organization listing call fails outright, the resolver
    returns an empty list and [main] ends with exit code 0 without writing
    any artifact. *)
Theorem listing_failure_clean_exit (ld : jsval -> string) (env : run_env) :
  token_truthy (env_token env) = true -> env_mkdir_ok env = true ->
  listing_call_fails (env_fetch env orgs_repos_url) = true ->
  fetchRepositories ld (env_fetch env) = [] /\ main ld env = (0%Z, initial_state).
Proof.
  intros Htok Hmk Hfail.
  assert (Hnil : fetchRepositories ld (env_fetch env) = []).
  { unfold fetchRepositories. unfold listing_call_fails in Hfail.
    destruct (env_fetch env orgs_repos_url) as [r|]; [|reflexivity].
    destruct (resp_ok r); simpl in *; [|reflexivity].
    destruct (resp_json r); [discriminate|reflexivity]. }
  split; [exact Hnil|].
  unfold main. rewrite Htok. simpl. rewrite !removeDirectory_resolves, Hmk. simpl.
  rewrite Hnil. rewrite teardown_code. reflexivity.
Qed.

Definition offline_env : run_env :=
  mkRunEnv (Some "ghs_token") (fun _ => RmOk) true (fun _ => None) true
    (fun _ => CaptureOk) true.

Lemma listing_failure_clean_exit_witness :
  main (fun _ => "") offline_env = (0%Z, initial_state).
Proof.
  apply (listing_failure_clean_exit (fun _ => "") offline_env); reflexivity.
Defined.

(** ** Target Resolver *)

Lemma js_strict_eq_str_refl (s : string) : js_strict_eq (JStr s) (JStr s) = true.
Proof. simpl. apply String.eqb_refl. Qed.

Lemma not_self_after_filter (self : string) (owned : list repo_json) :
  ~ In (JStr self)
      (map rj_name (filter (fun repo => negb (js_strict_eq (rj_name repo) (JStr self))) owned)).
Proof.
  intros Hin. apply in_map_iff in Hin. destruct Hin as [repo [Hn Hf]].
  apply filter_In in Hf. destruct Hf as [_ Hf].
  rewrite Hn, js_strict_eq_str_refl in Hf. discriminate.
Qed.

Lemma names_loop_excludes_catalog (fetch : fetcher (list repo_json)) (fuel : nat) :
  forall page acc res,
    ~ In (JStr "Catalog_of_Repos") acc ->
    Part001.names_loop fetch fuel page acc = Some res ->
    ~ In (JStr "Catalog_of_Repos") res.
Proof.
  induction fuel as [|fuel IH]; intros page acc res Hacc Hrun; simpl in Hrun;
    [discriminate|].
  destruct (fetch (Part001.user_repos_url page)) as [r|]; [|congruence].
  destruct (resp_ok r); simpl in Hrun; [|congruence].
  destruct (resp_json r) as [data|]; [|congruence].
  destruct (Part001.owner_filter data) as [owned|]; [|congruence].
  assert (Hnew : ~ In (JStr "Catalog_of_Repos")
    (acc ++ map rj_name (filter (fun repo => negb (js_strict_eq (rj_name repo)
                                                    (JStr "Catalog_of_Repos"))) owned))%list).
  { intros Hin. apply in_app_or in Hin. destruct Hin as [H|H];
      [exact (Hacc H)|exact (not_self_after_filter _ _ H)]. }
  destruct (match resp_link r with
            | Some linkHeader => contains Part001.rel_next linkHeader
            | None => false end).
  - exact (IH _ _ _ Hnew Hrun).
  - congruence.
Qed.

(** C5 (counterexample): the organization listing and the
    credential-scoped listing keep a name the provider lists twice, and
    the public-org listing of the clone-based variant keeps
    [Catalog_of_Repos]. *)
Lemma resolver_duplicates_and_self :
  map name (fetchRepositories (fun _ => "") (ok_listing [bare_repo "app"; bare_repo "app"]))
    = [JStr "app"; JStr "app"] /\
  Part002.fetchRepositories (ok_listing [bare_repo "Catalog_of_Repos"; bare_repo "app"])
    = [JStr "Catalog_of_Repos"; JStr "app"] /\
  Part001.fetchRepositoryNames (Some "ghp_token") (ok_listing [bare_repo "app"; bare_repo "app"]) 1
    = Some [JStr "app"; JStr "app"].
Proof. split; [|split]; reflexivity. Qed.

(** C5 (amended): the organization listing and the credential-scoped
    listing never return [Catalog_of_Repos]; no resolver removes
    duplicates: the organization listing returns the provider's names in
    provider order minus [Catalog_of_Repos], the public-org listing of
    the clone-based variant returns the provider's names unfiltered, and
    the credential-scoped listing returns, for a single page, the names of
    the owned repositories in provider order minus [Catalog_of_Repos]. *)
Theorem resolver_self_exclusion :
  (forall ld fetch, Forall (fun c => name c <> JStr REPO_NAME) (fetchRepositories ld fetch)) /\
  (forall token fetch fuel,
     match Part001.fetchRepositoryNames token fetch fuel with
     | Some res => ~ In (JStr "Catalog_of_Repos") res
     | None => True
     end) /\
  (forall ld data,
     map name (fetchRepositories ld (ok_listing data))
     = filter (fun n => negb (js_strict_eq n (JStr REPO_NAME))) (map rj_name data)) /\
  (forall data, Part002.fetchRepositories (ok_listing data) = map rj_name data) /\
  (forall token data fuel,
     Part001.fetchRepositoryNames token (ok_listing data) (S fuel)
     = if token_truthy token
       then match Part001.owner_filter data with
            | Some owned =>
                Some (map rj_name
                        (filter (fun repo => negb (js_strict_eq (rj_name repo) (JStr REPO_NAME)))
                           owned))
            | None => Some []
            end
       else Some []).
Proof.
  split; [|split; [|split; [|split]]].
  - intros ld fetch. apply Forall_forall. intros c Hin Hc.
    unfold fetchRepositories in Hin.
    destruct (fetch orgs_repos_url) as [r|]; [|contradiction].
    destruct (resp_ok r); [|contradiction].
    destruct (resp_json r) as [data|]; [|contradiction].
    apply in_map_iff in Hin. destruct Hin as [repo [Hrc Hf]].
    apply (not_self_after_filter REPO_NAME data).
    pose proof (in_map rj_name _ _ Hf) as H.
    rewrite <- Hrc in Hc. simpl in Hc. rewrite Hc in H. exact H.
  - intros token fetch fuel. unfold Part001.fetchRepositoryNames.
    destruct (negb (token_truthy token)); [intros []|].
    destruct (Part001.names_loop fetch fuel 1 []) as [res|] eqn:Hrun; [|exact I].
    exact (names_loop_excludes_catalog fetch fuel 1 [] res (fun H => H) Hrun).
  - intros ld data.
    change (fetchRepositories ld (ok_listing data)) with
      (map (repo_to_card ld)
         (filter (fun repo => negb (js_strict_eq (rj_name repo) (JStr REPO_NAME))) data)).
    induction data as [|repo rest IH]; simpl; [reflexivity|].
    destruct (js_strict_eq (rj_name repo) (JStr REPO_NAME)); simpl; congruence.
  - intros data. reflexivity.
  - intros token data fuel. unfold Part001.fetchRepositoryNames.
    destruct (token_truthy token); [|reflexivity].
    simpl. destruct (Part001.owner_filter data); reflexivity.
Qed.

(** An organization with 101 repositories, [r0] .. [r100]. *)
Definition org_101 : list repo_json :=
  map (fun n => bare_repo ("r" ++ string_of_Z (Z.of_nat n))) (seq 0 101).

(** C6 (counterexample): for an organization with 101 repositories the
    provider announces a second page holding [r100], but the organization
    listing returns only the 100 repositories of the first page. *)
Lemma org_listing_single_page :
  length org_101 = 101 /\
  org_page_link org_101 1 <> None /\
  option_map (fun r => option_map (map rj_name) (resp_json r))
    (org_listing_provider org_101 (org_page_url 2)) = Some (Some [JStr "r100"]) /\
  length (fetchRepositories (fun _ => "") (org_listing_provider org_101)) = 100 /\
  existsb (fun c => js_strict_eq (name c) (JStr "r100"))
    (fetchRepositories (fun _ => "") (org_listing_provider org_101)) = false.
Proof.
  split; [vm_compute; reflexivity|].
  split; [vm_compute; discriminate|].
  repeat split; vm_compute; reflexivity.
Qed.

(** C6 (amended): the organization listing issues the single request
    [orgs/DapaLMS1/repos?per_page=100&type=all] and ignores the [link]
    header: its result depends on that one response only, and against a
    paginating provider it is the first page (at most 100 repositories) in
    provider order, minus [Catalog_of_Repos]. *)
Theorem org_listing_first_page_only :
  (forall ld fetch,
     fetchRepositories ld fetch = fetchRepositories ld (fun _ => fetch orgs_repos_url)) /\
  (forall ld all,
     fetchRepositories ld (org_listing_provider all)
     = map (repo_to_card ld)
         (filter (fun repo => negb (js_strict_eq (rj_name repo) (JStr REPO_NAME)))
            (firstn 100 all))).
Proof.
  split.
  - intros ld fetch. reflexivity.
  - intros ld all. unfold fetchRepositories, org_listing_provider.
    rewrite String.eqb_refl. simpl. reflexivity.
Qed.

(** * Further properties of the scripts *)

Ltac split_string_matches :=
  repeat match goal with
  | |- context [match ?x with _ => _ end] =>
      lazymatch x with
      | proto_member _ => fail
      | _ => destruct x
      end
  end.

(** The accent class of a card is one of the six Tailwind classes of the
    table, the default being gray, unless the language is named after an
    [Object.prototype] member, whose text then becomes the class. *)
Theorem languageColor_fixed_classes (lang : jsval) :
  proto_member (js_to_string lang) = None ->
  In (languageColor lang)
    ["text-yellow-400"; "text-blue-500"; "text-green-500"; "text-red-500";
     "text-indigo-500"; "text-gray-400"].
Proof.
  unfold languageColor. generalize (js_to_string lang) as k. intros k H.
  split_string_matches; try rewrite H; simpl; tauto.
Qed.

Lemma languageColor_fixed_classes_witness :
  proto_member "Go" = None /\
  In (languageColor (JStr "Go"))
    ["text-yellow-400"; "text-blue-500"; "text-green-500"; "text-red-500";
     "text-indigo-500"; "text-gray-400"].
Proof. split; [reflexivity|]. apply languageColor_fixed_classes. reflexivity. Defined.

(** The extra ['Unknown'] entry of the part_000 color table changes
    nothing: both tables give every language the same class. *)
Theorem part000_languageColor_agrees (lang : jsval) :
  Part000.languageColor lang = languageColor lang.
Proof.
  unfold Part000.languageColor, languageColor.
  generalize (js_to_string lang) as k. intros k.
  split_string_matches; reflexivity.
Qed.

Lemma collectDetails_length_le (ld : jsval -> string) (now : string)
  (fetch : fetcher repo_json) (names : list string) :
  length (Part000.collectDetails ld now fetch names) <= length names.
Proof.
  induction names as [|n rest IH]; simpl; [lia|].
  destruct (Part000.fetchRepositoryDetails ld now fetch n); simpl; lia.
Qed.

Lemma collectDetails_length_iff (ld : jsval -> string) (now : string)
  (fetch : fetcher repo_json) (names : list string) :
  length (Part000.collectDetails ld now fetch names) = length names <->
  Forall (fun n => Part000.fetchRepositoryDetails ld now fetch n <> None) names.
Proof.
  induction names as [|n rest IH]; simpl.
  - split; [constructor|reflexivity].
  - destruct (Part000.fetchRepositoryDetails ld now fetch n) as [d|] eqn:Hd; simpl.
    + split.
      * intros H. constructor; [congruence|]. apply IH. lia.
      * intros H. inversion H; subst. f_equal. apply IH. assumption.
    + split.
      * intros H. pose proof (collectDetails_length_le ld now fetch rest). lia.
      * intros H. inversion H; subst. contradiction.
Qed.

Lemma fetchRepositoryDetails_not_null (ld : jsval -> string) (now : string)
  (fetch : fetcher repo_json) (n : string) :
  Part000.fetchRepositoryDetails ld now fetch n <> None <->
  match fetch (Part000.details_url n) with
  | None => False
  | Some r => resp_ok r = true -> resp_json r <> None
  end.
Proof.
  unfold Part000.fetchRepositoryDetails.
  destruct (fetch (Part000.details_url n)) as [r|]; [|tauto].
  destruct (resp_ok r); simpl.
  - destruct (resp_json r); split; intros H; try discriminate; auto.
    exfalso. apply H; reflexivity.
  - split; intros _; [intros H; discriminate H|discriminate].
Qed.

(** part_000's collecting loop keeps one record per target exactly when
    every details request gets a response and every successful response
    parses: a transport failure or an unparsable body drops the target,
    while a non-success status yields the placeholder record, which is
    kept. *)
Theorem collectDetails_one_record_per_target (ld : jsval -> string) (now : string)
  (fetch : fetcher repo_json) (names : list string) :
  length (Part000.collectDetails ld now fetch names) = length names <->
  Forall (fun n => match fetch (Part000.details_url n) with
                   | None => False
                   | Some r => resp_ok r = true -> resp_json r <> None
                   end) names.
Proof.
  rewrite collectDetails_length_iff.
  split; apply Forall_impl; intros n; apply fetchRepositoryDetails_not_null.
Qed.

Lemma collectDetails_one_record_per_target_witness :
  length (Part000.collectDetails (fun _ => "") "10/15/2026"
            (fun _ => Some (mkResponse false 403%Z None None)) Part000.TARGET_REPOS) = 2.
Proof.
  apply (proj2 (collectDetails_one_record_per_target (fun _ => "") "10/15/2026"
                  (fun _ => Some (mkResponse false 403%Z None None)) Part000.TARGET_REPOS)).
  apply Forall_forall. intros n _. simpl. intros H. discriminate H.
Defined.

(** part_000's [main] exits with 1 exactly when the token is missing, the
    output directory cannot be created, or, with some target collected,
    the browser fails to launch or [browser.close()] rejects; after a
    launch the artifacts are those of the collected records whose
    screenshot was taken. *)
Theorem part000_main_exit_code_and_artifacts (ld : jsval -> string) (now : string)
  (env : run_env) (detailsFetch : fetcher repo_json) :
  let data := Part000.collectDetails ld now detailsFetch Part000.TARGET_REPOS in
  fst (Part000Main.main ld now env detailsFetch)
  = (if token_truthy (env_token env) && env_mkdir_ok env &&
        match data with [] => true | _ => env_launch_ok env && env_close_ok env end
     then 0 else 1)%Z /\
  written (snd (Part000Main.main ld now env detailsFetch))
  = (if token_truthy (env_token env) && env_mkdir_ok env && env_launch_ok env
     then map (fun r => js_to_string (name r) ++ ".png")
            (filter (fun r => writes_file (env_capture env (js_to_string (name r)))) data)
     else []).
Proof.
  cbv zeta. unfold Part000Main.main.
  remember (Part000.collectDetails ld now detailsFetch Part000.TARGET_REPOS) as data eqn:Hdata.
  clear Hdata.
  destruct (token_truthy (env_token env)); [|split; reflexivity]; simpl.
  rewrite !removeDirectory_resolves.
  destruct (env_mkdir_ok env); [|split; reflexivity]; simpl.
  destruct data as [|r rest].
  - rewrite teardown_code. simpl. destruct (env_launch_ok env); split; reflexivity.
  - destruct (env_launch_ok env); cbn -[processingLoop teardown]; [|split; reflexivity].
    rewrite teardown_code. cbn -[processingLoop]. split.
    + destruct (env_close_ok env); reflexivity.
    + rewrite processingLoop_written. simpl.
      rewrite generatePreviewCard_written. simpl.
      destruct (writes_file (env_capture env (js_to_string (name r)))); reflexivity.
Qed.

(** The listing loop of part_001 only ever appends: whatever stops it
    (a rejected call, a non-success status, a body that does not parse, a
    repository without owner), the names of the pages read before are
    kept. *)
Theorem names_loop_keeps_earlier_pages (fetch : fetcher (list repo_json)) (fuel : nat) :
  forall page acc res,
    Part001.names_loop fetch fuel page acc = Some res -> exists rest, res = (acc ++ rest)%list.
Proof.
  induction fuel as [|fuel IH]; intros page acc res Hrun; simpl in Hrun; [discriminate|].
  destruct (fetch (Part001.user_repos_url page)) as [r|];
    [|exists []; rewrite app_nil_r; congruence].
  destruct (resp_ok r); simpl in Hrun; [|exists []; rewrite app_nil_r; congruence].
  destruct (resp_json r) as [data|]; [|exists []; rewrite app_nil_r; congruence].
  destruct (Part001.owner_filter data) as [owned|]; [|exists []; rewrite app_nil_r; congruence].
  destruct (match resp_link r with
            | Some linkHeader => contains Part001.rel_next linkHeader
            | None => false end).
  - destruct (IH _ _ _ Hrun) as [rest Hres]. rewrite <- app_assoc in Hres. eexists. exact Hres.
  - eexists. symmetry. exact (f_equal (fun o => match o with Some l => l | None => [] end) Hrun).
Qed.

Lemma names_loop_keeps_earlier_pages_witness :
  exists rest,
    Part001.names_loop (ok_listing [bare_repo "app"]) 1 1 [JStr "lib"] = Some [JStr "lib"; JStr "app"] /\
    [JStr "lib"; JStr "app"] = ([JStr "lib"] ++ rest)%list.
Proof.
  destruct (names_loop_keeps_earlier_pages (ok_listing [bare_repo "app"]) 1 1 [JStr "lib"]
              [JStr "lib"; JStr "app"] eq_refl) as [rest Hrest].
  exists rest. split; [reflexivity|exact Hrest].
Defined.

Lemma js_strict_eq_JStr (l : jsval) (s : string) :
  js_strict_eq l (JStr s) = true -> l = JStr s.
Proof.
  destruct l; simpl; try discriminate.
  intros H. apply String.eqb_eq in H. now subst.
Qed.

Lemma owner_filter_sound (data owned : list repo_json) (repo : repo_json) :
  Part001.owner_filter data = Some owned -> In repo owned ->
  In repo data /\ rj_owner_login repo = Some (JStr TARGET_ORG).
Proof.
  revert owned. induction data as [|r rest IH]; intros owned H Hin; simpl in H.
  - injection H as <-. contradiction.
  - destruct (rj_owner_login r) as [login|] eqn:Hl; [|discriminate].
    destruct (Part001.owner_filter rest) as [kept|]; [|discriminate].
    injection H as <-.
    destruct (js_strict_eq login (JStr TARGET_ORG)) eqn:He.
    + destruct Hin as [<-|Hin].
      * split; [left; reflexivity|]. rewrite Hl, (js_strict_eq_JStr _ _ He). reflexivity.
      * destruct (IH kept eq_refl Hin) as [H1 H2]. split; [right; exact H1|exact H2].
    + destruct (IH kept eq_refl Hin) as [H1 H2]. split; [right; exact H1|exact H2].
Qed.

Lemma names_loop_provenance (fetch : fetcher (list repo_json)) (fuel : nat) :
  forall page acc res x,
    Part001.names_loop fetch fuel page acc = Some res -> In x res ->
    In x acc \/
    exists p r data repo,
      page <= p /\ fetch (Part001.user_repos_url p) = Some r /\ resp_ok r = true /\
      resp_json r = Some data /\ In repo data /\
      rj_owner_login repo = Some (JStr TARGET_ORG) /\ rj_name repo = x.
Proof.
  induction fuel as [|fuel IH]; intros page acc res x Hrun Hin; simpl in Hrun; [discriminate|].
  destruct (fetch (Part001.user_repos_url page)) as [r|] eqn:Hf; [|left; congruence].
  destruct (resp_ok r) eqn:Hok; simpl in Hrun; [|left; congruence].
  destruct (resp_json r) as [data|] eqn:Hj; [|left; congruence].
  destruct (Part001.owner_filter data) as [owned|] eqn:Ho; [|left; congruence].
  assert (Hnew : forall y, In y (acc ++ map rj_name (filter (fun repo => negb (js_strict_eq
                   (rj_name repo) (JStr "Catalog_of_Repos"))) owned))%list ->
            In y acc \/ exists p r data repo,
              page <= p /\ fetch (Part001.user_repos_url p) = Some r /\ resp_ok r = true /\
              resp_json r = Some data /\ In repo data /\
              rj_owner_login repo = Some (JStr TARGET_ORG) /\ rj_name repo = y).
  { intros y Hy. apply in_app_or in Hy. destruct Hy as [Hy|Hy]; [left; exact Hy|right].
    apply in_map_iff in Hy. destruct Hy as [repo [Hname Hrepo]].
    apply filter_In in Hrepo. destruct Hrepo as [Hrepo _].
    destruct (owner_filter_sound data owned repo Ho Hrepo) as [Hd Hown].
    exists page, r, data, repo. repeat split; auto. }
  destruct (match resp_link r with
            | Some linkHeader => contains Part001.rel_next linkHeader
            | None => false end).
  - destruct (IH _ _ _ _ Hrun Hin) as [Hacc|[p [r' [data' [repo' H]]]]].
    + exact (Hnew x Hacc).
    + right. exists p, r', data', repo'. intuition lia.
  - injection Hrun as <-. exact (Hnew x Hin).
Qed.

(** Every name the credential-scoped listing of part_001 returns is the
    name of a repository whose [owner.login] is [DapaLMS1], found in a
    successfully read page of [user/repos]. *)
Theorem fetchRepositoryNames_owned_only (token : option string)
  (fetch : fetcher (list repo_json)) (fuel : nat) (res : list jsval) (x : jsval) :
  Part001.fetchRepositoryNames token fetch fuel = Some res -> In x res ->
  exists p r data repo,
    1 <= p /\ fetch (Part001.user_repos_url p) = Some r /\ resp_ok r = true /\
    resp_json r = Some data /\ In repo data /\
    rj_owner_login repo = Some (JStr TARGET_ORG) /\ rj_name repo = x.
Proof.
  unfold Part001.fetchRepositoryNames. intros Hrun Hin.
  destruct (negb (token_truthy token)); [injection Hrun as <-; contradiction|].
  destruct (names_loop_provenance fetch fuel 1 [] res x Hrun Hin) as [[]|H]. exact H.
Qed.

Lemma fetchRepositoryNames_owned_only_witness :
  exists p r data repo,
    1 <= p /\ ok_listing [bare_repo "app"] (Part001.user_repos_url p) = Some r /\
    resp_ok r = true /\ resp_json r = Some data /\ In repo data /\
    rj_owner_login repo = Some (JStr TARGET_ORG) /\ rj_name repo = JStr "app".
Proof.
  apply (fetchRepositoryNames_owned_only (Some "ghp_token") (ok_listing [bare_repo "app"]) 1
           [JStr "app"] (JStr "app")); [reflexivity|left; reflexivity].
Defined.

(** part_001's renderer throws exactly when the repository name is a
    truthy value that is not a string ([replace] is not a method of
    numbers or booleans); the star count defaults to 0 and never makes it
    throw. *)
Theorem part001_render_throws_iff (localeNumber : Z -> string) (details : repo_json) :
  Part001.generateHtmlContent localeNumber details = None <->
  (truthy (rj_name details) = true /\ forall s, rj_name details <> JStr s).
Proof.
  unfold Part001.generateHtmlContent, js_or.
  assert (Hstars : Part001.js_toLocaleString localeNumber
             (if truthy (rj_stargazers_count details) then rj_stargazers_count details
              else JNum 0) <> None).
  { destruct (rj_stargazers_count details) as [| |[]| |]; simpl;
      try destruct (negb (_ =? 0)%Z); try destruct (negb (_ =? "")%string); discriminate. }
  destruct (rj_name details) as [| |b|z|s] eqn:Hn; simpl.
  - split; [|intros [H _]; discriminate]. intros H.
    destruct (Part001.js_toLocaleString _ _); [discriminate|contradiction].
  - split; [|intros [H _]; discriminate]. intros H.
    destruct (Part001.js_toLocaleString _ _); [discriminate|contradiction].
  - destruct b; simpl.
    + split; [intros _; split; [reflexivity|discriminate]|reflexivity].
    + split; [|intros [H _]; discriminate]. intros H.
      destruct (Part001.js_toLocaleString _ _); [discriminate|contradiction].
  - destruct (negb (z =? 0)%Z); simpl.
    + split; [intros _; split; [reflexivity|discriminate]|reflexivity].
    + split; [|intros [H _]; discriminate]. intros H.
      destruct (Part001.js_toLocaleString _ _); [discriminate|contradiction].
  - destruct (negb (s =? "")%string) eqn:Hs; simpl.
    + split; [|intros [_ H]; exfalso; exact (H s eq_refl)]. intros H.
      destruct (Part001.js_toLocaleString _ _); [discriminate|contradiction].
    + split; [|intros [H _]; discriminate]. intros H.
      destruct (Part001.js_toLocaleString _ _); [discriminate|contradiction].
Qed.

Lemma string_app_assoc (a b c : string) : ((a ++ b) ++ c)%string = (a ++ b ++ c)%string.
Proof. induction a as [|x a IH]; simpl; [reflexivity|now rewrite IH]. Qed.

Lemma string_app_nil_r (a : string) : (a ++ "")%string = a.
Proof. induction a as [|x a IH]; simpl; [reflexivity|now rewrite IH]. Qed.

Lemma string_app_cancel_l (a x y : string) : (a ++ x)%string = (a ++ y)%string -> x = y.
Proof. induction a as [|c a IH]; simpl; [auto|intros H; injection H; auto]. Qed.

Lemma contains_span (a b c rest : string) : contains (a ++ b ++ c) (a ++ b ++ c ++ rest) = true.
Proof.
  rewrite <- (string_app_assoc b c rest), <- (string_app_assoc a (b ++ c) rest).
  apply contains_here.
Qed.

Lemma contains_span_end (a b c : string) : contains (a ++ b ++ c) (a ++ b ++ c) = true.
Proof.
  pose proof (contains_here (a ++ b ++ c) "") as H.
  rewrite string_app_nil_r in H. exact H.
Qed.

Lemma contains_span5 (a b c d e rest : string) :
  contains (a ++ b ++ c ++ d ++ e) (a ++ b ++ c ++ d ++ e ++ rest) = true.
Proof. rewrite <- !string_app_assoc. apply contains_here. Qed.

Lemma some_string_inj (a b : string) : Some a = Some b -> a = b.
Proof. congruence. Qed.

Ltac find_span :=
  first [ apply contains_span | apply contains_span_end | apply contains_app_r; find_span ].

Lemma replace_hyphens_no_hyphen (s : string) : contains "-" (Part001.replace_hyphens s) = false.
Proof.
  induction s as [|c s IH]; [reflexivity|].
  cbn [Part001.replace_hyphens contains String.prefix]. rewrite IH, orb_false_r.
  destruct (Ascii.eqb c "-") eqn:E;
    match goal with |- context [ascii_dec ?a ?b] => destruct (ascii_dec a b) as [e|_] end;
    try reflexivity.
  - discriminate e.
  - subst c. discriminate E.
Qed.

Lemma replace_hyphens_length (s : string) : String.length (Part001.replace_hyphens s) = String.length s.
Proof. induction s as [|c s IH]; simpl; [reflexivity|now rewrite IH]. Qed.

Lemma part001_tpl_0_title : exists pre, Part001.tpl_0 = (pre ++ "<title>")%string.
Proof.
  exists (substring 0 (String.length Part001.tpl_0 - 7) Part001.tpl_0).
  vm_compute. reflexivity.
Qed.

Lemma part001_tpl_1_title : exists post, Part001.tpl_1 = (" Social Card</title>" ++ post)%string.
Proof.
  exists (substring 20 (String.length Part001.tpl_1 - 20) Part001.tpl_1).
  vm_compute. reflexivity.
Qed.

Lemma part001_stars_render (localeNumber : Z -> string) (v : jsval) :
  exists t, Part001.js_toLocaleString localeNumber (js_or v (JNum 0)) = Some t.
Proof.
  unfold js_or. destruct v as [| |[]|z|s]; simpl; eauto;
    [destruct (negb (z =? 0)%Z) | destruct (negb (s =? "")%string)]; simpl; eauto.
Qed.

(** For a non-empty string name, part_001's card shows the name with every
    hyphen turned into a space in the heading (same length, no hyphen
    left), while the page [<title>] keeps the name unchanged. *)
Theorem part001_heading_and_title (localeNumber : Z -> string) (details : repo_json)
  (s : string) :
  rj_name details = JStr s -> s <> ""%string ->
  exists html,
    Part001.generateHtmlContent localeNumber details = Some html /\
    contains ("<title>" ++ s ++ " Social Card</title>") html = true /\
    contains (Part001.tpl_1 ++ Part001.replace_hyphens s ++ Part001.tpl_2) html = true /\
    contains "-" (Part001.replace_hyphens s) = false /\
    String.length (Part001.replace_hyphens s) = String.length s.
Proof.
  intros Hn Hs. apply String.eqb_neq in Hs.
  destruct (part001_stars_render localeNumber (rj_stargazers_count details)) as [t Ht].
  unfold Part001.generateHtmlContent.
  rewrite Ht. unfold js_or at 1. rewrite Hn. cbn [truthy]. rewrite Hs.
  cbn [negb Part001.js_replace_hyphens js_to_string].
  eexists. split; [reflexivity|].
  split; [|split; [find_span|split; [apply replace_hyphens_no_hyphen|apply replace_hyphens_length]]].
  destruct part001_tpl_0_title as [pre Hpre], part001_tpl_1_title as [post Hpost].
  assert (Hname : js_to_string (js_or (JStr s) (JStr "Unknown Repository")) = s).
  { unfold js_or. cbn [truthy]. rewrite Hs. reflexivity. }
  rewrite Hname, Hpre, Hpost, !string_app_assoc.
  apply contains_app_r. apply contains_span.
Qed.

Lemma part001_heading_and_title_witness :
  exists html,
    Part001.generateHtmlContent (fun _ => "0")
      (mkRepo (JStr "my-repo") JUndefined JUndefined JUndefined JUndefined JUndefined
         JUndefined None) = Some html /\
    contains ("<title>" ++ "my-repo" ++ " Social Card</title>") html = true /\
    contains (Part001.tpl_1 ++ Part001.replace_hyphens "my-repo" ++ Part001.tpl_2) html = true /\
    contains "-" (Part001.replace_hyphens "my-repo") = false /\
    String.length (Part001.replace_hyphens "my-repo") = String.length "my-repo".
Proof.
  apply (part001_heading_and_title (fun _ => "0")
           (mkRepo (JStr "my-repo") JUndefined JUndefined JUndefined JUndefined JUndefined
              JUndefined None) "my-repo"); [reflexivity|discriminate].
Defined.

(** In a card part_001 renders, each missing (falsy) field shows its
    default at its place: "Unknown Repository" as title and heading,
    "A project hosted on GitHub." as description, "Mixed" as language and
    the locale text of 0 as star count. *)
Theorem part001_render_defaults (localeNumber : Z -> string) (details : repo_json)
  (html : string) :
  Part001.generateHtmlContent localeNumber details = Some html ->
  (truthy (rj_name details) = false ->
   contains (Part001.tpl_0 ++ "Unknown Repository" ++ Part001.tpl_1
             ++ "Unknown Repository" ++ Part001.tpl_2) html = true) /\
  (truthy (rj_description details) = false ->
   contains (Part001.tpl_2 ++ "A project hosted on GitHub." ++ Part001.tpl_3) html = true) /\
  (truthy (rj_language details) = false ->
   contains (Part001.tpl_3 ++ "Mixed" ++ Part001.tpl_4) html = true) /\
  (truthy (rj_stargazers_count details) = false ->
   contains (Part001.tpl_5 ++ localeNumber 0%Z ++ Part001.tpl_6) html = true).
Proof.
  unfold Part001.generateHtmlContent.
  destruct (Part001.js_replace_hyphens _) as [heading|] eqn:Hh; [|discriminate].
  destruct (Part001.js_toLocaleString _ _) as [starText|] eqn:Hst; [|discriminate].
  intros H. apply some_string_inj in H. subst html. unfold js_or in *.
  split; [|split; [|split]]; intros Hf; rewrite Hf in *.
  - simpl in Hh. injection Hh as <-.
    apply (contains_span5 Part001.tpl_0 "Unknown Repository" Part001.tpl_1 "Unknown Repository" Part001.tpl_2).
  - find_span.
  - find_span.
  - simpl in Hst. injection Hst as <-. find_span.
Qed.

Lemma part001_render_defaults_witness :
  exists html,
    Part001.generateHtmlContent (fun _ => "0")
      (mkRepo JNull JUndefined JUndefined JUndefined JUndefined JUndefined JUndefined None)
    = Some html /\
    contains (Part001.tpl_0 ++ "Unknown Repository" ++ Part001.tpl_1
              ++ "Unknown Repository" ++ Part001.tpl_2) html = true.
Proof.
  eexists. split; [reflexivity|].
  apply (part001_render_defaults (fun _ => "0")
           (mkRepo JNull JUndefined JUndefined JUndefined JUndefined JUndefined JUndefined None));
    reflexivity.
Defined.

Lemma part001_processRepository_written (localeNumber : Z -> string) (fault : capture_fault)
  (repoName : string) (details : repo_json) (st : run_state) :
  written (Part001Main.processRepository localeNumber fault repoName details st)
  = (written st
     ++ (if writes_file fault
            && match Part001.generateHtmlContent localeNumber details with
               | Some _ => true
               | None => false
               end
         then [(repoName ++ ".png")%string] else []))%list.
Proof.
  unfold Part001Main.processRepository.
  destruct fault; destruct (Part001.generateHtmlContent localeNumber details);
    simpl; rewrite ?app_nil_r; reflexivity.
Qed.

Lemma part001_processingLoop_written (localeNumber : Z -> string) (env : run_env)
  (detailsFetch : fetcher repo_json) (names : list jsval) :
  forall st,
    written (Part001Main.processingLoop localeNumber env detailsFetch names st)
    = (written st ++ map (fun n => (js_to_string n ++ ".png")%string)
                        (filter (part001_emits localeNumber env detailsFetch) names))%list.
Proof.
  induction names as [|n rest IH]; intros st; simpl.
  - rewrite app_nil_r. reflexivity.
  - rewrite IH. unfold part001_emits at 2.
    destruct (Part001.fetchRepoDetails detailsFetch (js_to_string n)) as [details|].
    + rewrite part001_processRepository_written.
      destruct (_ && _); simpl; rewrite <- app_assoc; reflexivity.
    + reflexivity.
Qed.

(** part_001's [main], once the listing returned [listed], exits with 0
    exactly when the token is set, the output directory is created and,
    unless [listed] is empty, the browser launches and closes; the
    artifacts are written (when the browser ran) for the listed names, in
    order, whose details request succeeds, whose card renders and whose
    screenshot is taken: a name with null details is skipped. *)
Theorem part001_main_exit_code_and_artifacts (localeNumber : Z -> string) (env : run_env)
  (detailsFetch : fetcher repo_json) (fuel : nat) (listed : list jsval) :
  Part001.fetchRepositoryNames (env_token env) (env_fetch env) fuel = Some listed ->
  exists st,
    Part001Main.main localeNumber env detailsFetch fuel
    = Some ((if token_truthy (env_token env) && env_mkdir_ok env
                && match listed with
                   | [] => true
                   | _ => env_launch_ok env && env_close_ok env
                   end
             then 0 else 1)%Z, st) /\
    written st
    = (if token_truthy (env_token env) && env_mkdir_ok env && env_launch_ok env
       then map (fun n => js_to_string n ++ ".png")
              (filter (part001_emits localeNumber env detailsFetch) listed)
       else []).
Proof.
  intros Hlist. unfold Part001Main.main.
  destruct (token_truthy (env_token env)); simpl; [|eexists; split; reflexivity].
  rewrite removeDirectory_resolves.
  destruct (env_mkdir_ok env); simpl; [|eexists; split; reflexivity].
  rewrite Hlist.
  destruct listed as [|n rest].
  - eexists. split; [reflexivity|]. simpl. destruct (env_launch_ok env); reflexivity.
  - remember (Part001Main.processingLoop localeNumber env detailsFetch (n :: rest)
                initial_state) as st0 eqn:Hst0.
    destruct (env_launch_ok env); simpl; [|eexists; split; reflexivity].
    unfold Part001Main.teardown. eexists. split.
    + destruct (env_close_ok env); reflexivity.
    + rewrite Hst0, part001_processingLoop_written. reflexivity.
Qed.

Lemma part001_main_exit_code_and_artifacts_witness :
  let env := mkRunEnv (Some "ghp_token") (fun _ => RmOk) true
               (ok_listing [bare_repo "app"; bare_repo "docs"; bare_repo "lib"]) true
               (fun n => if String.eqb n "lib" then ScreenshotFails else CaptureOk) true in
  let detailsFetch : fetcher repo_json := fun url =>
    if String.eqb url ("https://api.github.com/repos/" ++ TARGET_ORG ++ "/docs")
    then None
    else Some (mkResponse true 200%Z (Some (bare_repo "x")) None) in
  exists st,
    Part001Main.main (fun _ => "0") env detailsFetch 1
    = Some ((if token_truthy (env_token env) && env_mkdir_ok env
                && match [JStr "app"; JStr "docs"; JStr "lib"] with
                   | [] => true
                   | _ => env_launch_ok env && env_close_ok env
                   end
             then 0 else 1)%Z, st) /\
    written st
    = (if token_truthy (env_token env) && env_mkdir_ok env && env_launch_ok env
       then map (fun n => js_to_string n ++ ".png")
              (filter (part001_emits (fun _ => "0") env detailsFetch)
                 [JStr "app"; JStr "docs"; JStr "lib"])
       else []).
Proof.
  intros env detailsFetch.
  apply (part001_main_exit_code_and_artifacts (fun _ => "0") env detailsFetch 1
           [JStr "app"; JStr "docs"; JStr "lib"]).
  vm_compute. reflexivity.
Defined.

Lemma page_steps_written (fault : capture_fault) (outputFile : string) (rs : run_state) :
  written (Part002Clone.page_steps fault outputFile rs)
  = (written rs ++ (if writes_file fault then [outputFile] else []))%list.
Proof. destruct fault; simpl; rewrite ?app_nil_r; reflexivity. Qed.

Lemma clone_processingLoop_strings (env : Part002Clone.clone_env) (names : list string) :
  forall st,
    fst (Part002Clone.processingLoop env (map JStr names) st) = None /\
    cs_clones (snd (Part002Clone.processingLoop env (map JStr names) st))
    = (cs_clones st ++ map Part002Clone.clone_path
                          (filter (Part002Clone.ce_clone_ok env) names))%list /\
    written (cs_run (snd (Part002Clone.processingLoop env (map JStr names) st)))
    = (written (cs_run st) ++ map (fun n => (n ++ ".png")%string)
                                 (filter (clone_emits env) names))%list.
Proof.
  induction names as [|n rest IH]; intros st; simpl.
  - rewrite !app_nil_r. repeat split.
  - destruct (Part002Clone.ce_clone_ok env n) eqn:Ec; simpl;
      [destruct (Part002Clone.ce_has_index env n) eqn:Ei; simpl|];
      match goal with
      | |- context [Part002Clone.processingLoop env (map JStr rest) ?s] =>
          destruct (IH s) as [H1 [H2 H3]]
      end;
      (split; [exact H1|]); rewrite H2, H3; cbn [filter cs_clones cs_run add_clone];
      let e := fresh "Hce" in
      assert (e : clone_emits env n
                  = Part002Clone.ce_clone_ok env n && Part002Clone.ce_has_index env n
                    && writes_file (Part002Clone.ce_capture env n)) by reflexivity;
      rewrite e, ?Ec, ?Ei; cbn [andb].
    + rewrite page_steps_written, <- !app_assoc.
      destruct (writes_file _); simpl; split; reflexivity.
    + rewrite <- !app_assoc. split; reflexivity.
    + split; reflexivity.
Qed.

(** The first clone-based script of part_002 always exits with code 1:
    every early failure calls [process.exit(1)], a rejecting
    [processRepository] is caught the same way, and otherwise its [finally]
    calls [fs.existsSync] on [fs.promises], where it is not a function. *)
Theorem part002_clone_main_always_exits_1 (env : Part002Clone.clone_env) :
  fst (Part002Clone.main env) = 1%Z.
Proof.
  assert (Hfs : fs_promises_has "existsSync" = false) by reflexivity.
  unfold Part002Clone.main, Part002Clone.teardown. rewrite Hfs.
  destruct (Part002Clone.ce_rimraf_ok env CLONE_DIR); [|reflexivity].
  destruct (Part002Clone.ce_rimraf_ok env OUTPUT_DIR); [|reflexivity].
  destruct (Part002Clone.ce_mkdir_ok env); [|reflexivity].
  destruct (Part002.fetchRepositories (Part002Clone.ce_fetch env)) as [|j l].
  - destruct (Part002Clone.ce_close_ok env); reflexivity.
  - destruct (Part002Clone.processingLoop env (j :: l) clone_state0) as [[msg|] st];
      destruct (Part002Clone.ce_launch_ok env); destruct (Part002Clone.ce_close_ok env);
      reflexivity.
Qed.

(** When the listing gives string names and every setup step succeeds, the
    first clone-based script of part_002 leaves each successfully cloned
    repository in [temp_clone/<name>] (its [finally] throws before the
    cleanup) and writes the artifacts of the clones that have an
    [index.html] and reach the screenshot, in listing order. *)
Theorem part002_clone_main_keeps_clones (env : Part002Clone.clone_env) (names : list string) :
  Part002Clone.ce_rimraf_ok env CLONE_DIR = true ->
  Part002Clone.ce_rimraf_ok env OUTPUT_DIR = true ->
  Part002Clone.ce_mkdir_ok env = true ->
  Part002Clone.ce_launch_ok env = true ->
  Part002.fetchRepositories (Part002Clone.ce_fetch env) = map JStr names ->
  cs_clones (snd (Part002Clone.main env))
  = map Part002Clone.clone_path (filter (Part002Clone.ce_clone_ok env) names) /\
  written (cs_run (snd (Part002Clone.main env)))
  = map (fun n => (n ++ ".png")%string) (filter (clone_emits env) names).
Proof.
  intros Hc Ho Hm Hl Hf.
  assert (Hfs : fs_promises_has "existsSync" = false) by reflexivity.
  unfold Part002Clone.main, Part002Clone.teardown.
  rewrite Hc, Ho, Hm, Hf, Hfs, Hl.
  destruct names as [|n rest]; [split; reflexivity|].
  destruct (clone_processingLoop_strings env (n :: rest) clone_state0) as [H1 [H2 H3]].
  simpl map in H1, H2, H3 |- *. cbv beta iota.
  destruct (Part002Clone.processingLoop env (JStr n :: map JStr rest) clone_state0) as [o st].
  simpl in H1, H2, H3. subst o. simpl.
  destruct (Part002Clone.ce_close_ok env); split; assumption.
Qed.

Lemma part002_clone_main_keeps_clones_witness :
  let env := Part002Clone.mkCloneEnv (fun _ => true) true
               (ok_listing [bare_repo "app"; bare_repo "lib"]) true
               (fun n => String.eqb n "app") (fun _ => true) (fun _ => ScreenshotFails) true in
  cs_clones (snd (Part002Clone.main env))
  = map Part002Clone.clone_path (filter (Part002Clone.ce_clone_ok env) ["app"; "lib"]) /\
  written (cs_run (snd (Part002Clone.main env)))
  = map (fun n => (n ++ ".png")%string) (filter (clone_emits env) ["app"; "lib"]).
Proof.
  intros env.
  apply (part002_clone_main_keeps_clones env ["app"; "lib"]); reflexivity.
Defined.

Lemma multi_generateThumbnail_written (env : Part002Multi.multi_env) (n : string)
  (st : clone_state) :
  written (cs_run (Part002Multi.generateThumbnail env n st))
  = (written (cs_run st) ++ (if multi_emits env n then [(n ++ ".png")%string] else []))%list.
Proof.
  unfold Part002Multi.generateThumbnail, multi_emits.
  destruct (token_truthy (Part002Multi.me_token env)); simpl; [|rewrite app_nil_r; reflexivity].
  destruct (Part002Multi.me_clone_ok env n), (Part002Multi.me_capture env n),
    (Part002Multi.me_has_index env n), (Part002Multi.me_rimraf_ok env (Part002Multi.TEMP_DIR n));
    simpl; rewrite ?app_nil_r; reflexivity.
Qed.

Lemma multi_processingLoop_written (env : Part002Multi.multi_env) (names : list string) :
  forall st,
    written (cs_run (Part002Multi.processingLoop env names st))
    = (written (cs_run st) ++ map (fun n => (n ++ ".png")%string)
                                 (filter (multi_emits env) names))%list.
Proof.
  induction names as [|n rest IH]; intros st; simpl.
  - rewrite app_nil_r. reflexivity.
  - rewrite IH, multi_generateThumbnail_written, <- app_assoc.
    destruct (multi_emits env n); reflexivity.
Qed.

(** [runGenerator] exits with 0 exactly when the output directory exists or
    is created, the browser launches and [browser.close()] succeeds; the
    artifacts written are, in [REPOSITORIES] order, those of the targets
    with the token set, a successful clone, an [index.html] and a
    screenshot taken.  In particular without [GITHUB_TOKEN] it writes no
    artifact and still exits with 0. *)
Theorem runGenerator_exit_code_and_artifacts (env : Part002Multi.multi_env) :
  fst (Part002Multi.runGenerator env)
  = (if (Part002Multi.me_output_exists env || Part002Multi.me_mkdir_ok env)
        && Part002Multi.me_launch_ok env && Part002Multi.me_close_ok env
     then 0 else 1)%Z /\
  written (cs_run (snd (Part002Multi.runGenerator env)))
  = (if (Part002Multi.me_output_exists env || Part002Multi.me_mkdir_ok env)
        && Part002Multi.me_launch_ok env
     then map (fun n => (n ++ ".png")%string)
            (filter (multi_emits env) Part002Multi.REPOSITORIES)
     else []).
Proof.
  unfold Part002Multi.runGenerator.
  pose proof (multi_processingLoop_written env Part002Multi.REPOSITORIES clone_state0) as Hw.
  destruct (Part002Multi.processingLoop env Part002Multi.REPOSITORIES clone_state0) as [rs cl].
  simpl in Hw.
  destruct (Part002Multi.me_output_exists env), (Part002Multi.me_mkdir_ok env),
    (Part002Multi.me_launch_ok env), (Part002Multi.me_close_ok env),
    (Part002Multi.me_rimraf_ok env Part002Multi.TEMP_ROOT);
    simpl; split; auto.
Qed.

Lemma filter_remove_absent (d : string) (l : list string) :
  ~ In d l -> filter (fun x => negb (String.eqb x d)) l = l.
Proof.
  induction l as [|x l IH]; intros Hn; simpl; [reflexivity|].
  destruct (String.eqb x d) eqn:E.
  - apply String.eqb_eq in E. subst x. exfalso. apply Hn. left. reflexivity.
  - simpl. rewrite IH; [reflexivity|]. intros Hin. apply Hn. right. exact Hin.
Qed.

Lemma TEMP_DIR_inj (a b : string) :
  Part002Multi.TEMP_DIR a = Part002Multi.TEMP_DIR b -> a = b.
Proof.
  unfold Part002Multi.TEMP_DIR. intros H. apply string_app_cancel_l in H.
  simpl in H. injection H as H. exact H.
Qed.

Lemma multi_generateThumbnail_clones (env : Part002Multi.multi_env) (n : string)
  (st : clone_state) :
  ~ In (Part002Multi.TEMP_DIR n) (cs_clones st) ->
  cs_clones (Part002Multi.generateThumbnail env n st)
  = (cs_clones st ++ (if multi_left_clone env n then [Part002Multi.TEMP_DIR n] else []))%list.
Proof.
  intros Hn. unfold Part002Multi.generateThumbnail, multi_left_clone.
  remember (Part002Multi.TEMP_DIR n) as d eqn:Hd.
  destruct (token_truthy (Part002Multi.me_token env)); simpl; [|rewrite app_nil_r; reflexivity].
  destruct (Part002Multi.me_clone_ok env n), (Part002Multi.me_rimraf_ok env d); simpl;
    [| |rewrite filter_remove_absent by exact Hn|];
    destruct (Part002Multi.me_capture env n); simpl; rewrite ?app_nil_r; try reflexivity;
    rewrite filter_app, filter_remove_absent by exact Hn; simpl;
    rewrite String.eqb_refl; simpl; rewrite app_nil_r; reflexivity.
Qed.

Lemma multi_processingLoop_clones (env : Part002Multi.multi_env) (names : list string) :
  NoDup names ->
  forall st,
    (forall n, In n names -> ~ In (Part002Multi.TEMP_DIR n) (cs_clones st)) ->
    cs_clones (Part002Multi.processingLoop env names st)
    = (cs_clones st ++ map Part002Multi.TEMP_DIR (filter (multi_left_clone env) names))%list.
Proof.
  induction names as [|n rest IH]; intros Hnd st Hfresh; simpl.
  - rewrite app_nil_r. reflexivity.
  - apply NoDup_cons_iff in Hnd. destruct Hnd as [Hnin Hnd].
    assert (Hstep := multi_generateThumbnail_clones env n st (Hfresh n (or_introl eq_refl))).
    rewrite IH; [|exact Hnd|].
    + rewrite Hstep, <- app_assoc. destruct (multi_left_clone env n); reflexivity.
    + intros m Hm Hin. rewrite Hstep in Hin. apply in_app_or in Hin.
      destruct Hin as [Hin|Hin].
      * exact (Hfresh m (or_intror Hm) Hin).
      * destruct (multi_left_clone env n); [|contradiction].
        destruct Hin as [Heq|[]]. apply TEMP_DIR_inj in Heq. subst m. contradiction.
Qed.

(** Each target of [runGenerator] removes its own clone in its [finally];
    when the run ends, [temp-clone] still holds exactly the clones (in
    [REPOSITORIES] order) whose per-target removal failed, unless the final
    cleanup after a successful [browser.close()] removed them all. *)
Theorem runGenerator_leftover_clones (env : Part002Multi.multi_env) :
  cs_clones (snd (Part002Multi.runGenerator env))
  = (if (Part002Multi.me_output_exists env || Part002Multi.me_mkdir_ok env)
        && Part002Multi.me_launch_ok env
     then if Part002Multi.me_close_ok env && Part002Multi.me_rimraf_ok env Part002Multi.TEMP_ROOT
          then []
          else map Part002Multi.TEMP_DIR (filter (multi_left_clone env) Part002Multi.REPOSITORIES)
     else []).
Proof.
  assert (Hnd : NoDup Part002Multi.REPOSITORIES).
  { repeat constructor; simpl; intuition discriminate. }
  pose proof (multi_processingLoop_clones env Part002Multi.REPOSITORIES Hnd clone_state0
                (fun _ _ H => H)) as Hc.
  simpl cs_clones at 2 in Hc.
  unfold Part002Multi.runGenerator.
  destruct (Part002Multi.processingLoop env Part002Multi.REPOSITORIES clone_state0) as [rs cl].
  simpl in Hc.
  destruct (Part002Multi.me_output_exists env), (Part002Multi.me_mkdir_ok env),
    (Part002Multi.me_launch_ok env), (Part002Multi.me_close_ok env),
    (Part002Multi.me_rimraf_ok env Part002Multi.TEMP_ROOT); simpl; auto.
Qed.
